(** * Survey-coverage statistics engine: a shallow embedding

    This development embeds [scripts/generate_statistics.py] and proves the
    properties its specification states about the aggregation engine:
    distance evaluation, CRS normalisation, record classification, the
    per-layer aggregation, the per-institution accumulator and the overview.
    It also embeds the control flow of [scripts/institution-statistics.py],
    the same pipeline written as a top-level script, and relates it to
    [main].

    Modelling conventions.
    - Integers are [Z]: the 64-bit width of an integer column is not
      modelled.  The floats returned by the geometry library are taken as
      exact rationals ([Q]) and [/ 1000] as exact division.
    - The geometry library (shapely, pyproj) is an interface, [GeoLib]:
      the length of a coordinate sequence (never negative) and the
      reprojection of a coordinate are operations of that interface, and
      building a geometry from coordinates always succeeds.
    - Reading and writing files is an input ([Files]) and a log
      ([csv_files]); a write always succeeds.
    - Data frames are Python objects with identity.  They live in two
      stores (one for layers, one for tables) and are named by their index;
      [institution_summary] and [all_statistics] hold such indices.
    - Exceptions are results [Raise e]; store updates made before an
      exception is raised persist, as they do in Python. *)

From Stdlib Require Import ZArith QArith Qround Qabs Lia Lqa Ascii.
From stdpp Require Import base list sorting strings gmap pretty.

Local Open Scope string_scope.
Local Open Scope list_scope.
Local Open Scope Z_scope.

(** ** Geometries *)

Definition Coord : Type := (Q * Q)%type.

(** The geometry kinds a layer can hold.  [Point], [LineString] and
    [MultiPoint] are the ones [calculate_distance] names; the others stand
    for every kind it does not name. *)
Inductive Geometry :=
| Point (c : Coord)
| LineString (coords : list Coord)
| MultiPoint (geoms : list Coord)
| Polygon (shell : list Coord)
| MultiLineString (lines : list (list Coord))
| NoGeometry.

(** The operations of the geometry library the script relies on. *)
Class GeoLib := {
  (** [LineString(coords).length], in the units of the reference system *)
  length_of : list Coord → Q;
  length_of_nonneg : ∀ cs, (0 <= length_of cs)%Q;
  (** reprojection of one coordinate from one reference system to another *)
  transform : string → string → Coord → Coord
}.

(** Python's [round(x)] with one argument: nearest integer, ties to even. *)
Definition py_round (x : Q) : Z :=
  let f := Qfloor x in
  match (x - inject_Z f ?= 1 # 2)%Q with
  | Lt => f
  | Gt => f + 1
  | Eq => if Z.even f then f else f + 1
  end.

Section Distance.
Context `{GeoLib}.

(** [calculate_distance], lines 11-21. *)
Definition calculate_distance (geometry : Geometry) : Z :=
  match geometry with
  | MultiPoint geoms =>
      let points := geoms in
      let line := LineString points in
      match line with
      | LineString coords => py_round (length_of coords / 1000)
      | _ => 0
      end
  | LineString coords => py_round (length_of coords / 1000)
  | Point _ => 0
  | _ => 0
  end.

End Distance.

(** ** Cells, rows and tables *)

(** A numeric column holds integers until it is formatted, strings after. *)
Inductive cell :=
| CInt (z : Z)
| CStr (s : string).

Inductive result (A : Type) :=
| Ok (a : A)
| Raise (e : string).
Arguments Ok {A} a.
Arguments Raise {A} e.

(** Decimal digits of a natural number with a comma between groups of
    three, counted from the right: the [','] option of [str.format]. *)
Fixpoint group3 (rev_digits : list ascii) (k : nat) : list ascii :=
  match rev_digits with
  | [] => []
  | d :: rest =>
      match rest with
      | [] => [d]
      | _ => if (k =? 2)%nat
             then d :: ("," : ascii)%char :: group3 rest 0
             else d :: group3 rest (S k)
      end
  end.

Definition commas (n : N) : string :=
  String.string_of_list_ascii
    (rev (group3 (rev (String.list_ascii_of_string (pretty n))) 0)).

Definition format_int (z : Z) : string :=
  if (z <? 0)%Z then String.append "-" (commas (Z.to_N (- z)))
  else commas (Z.to_N z).

(** [format_with_commas], lines 33-34: ["{:,}".format(number)].  The [',']
    option is refused for a string argument. *)
Definition format_with_commas (number : cell) : result string :=
  match number with
  | CInt z => Ok (format_int z)
  | CStr _ => Raise "Cannot specify ',' with 's'."
  end.

(** ** Layers and tables *)

(** One record of a layer.  A cell that is null in the source (or whose
    column the layer does not have) is [None]. *)
Record Feature := {
  geometry : Geometry;
  institution : option string;
  campaign : option string;
  availability : option string;
  total_distance_km : Z;
  available_distance_km : Z
}.

(** A layer: its reference system (possibly unset), the names of the
    columns it has, and its records. *)
Record GeoDataFrame := {
  crs : option string;
  columns : list string;
  features : list Feature
}.

(** A row of an aggregate table.  [row_availability] is null for every row
    but the synthetic total. *)
Record Row := {
  row_institution : string;
  row_campaign : string;
  row_total_distance_km : cell;
  row_available_distance_km : cell;
  row_availability : option string
}.

(** A row of the overview table. *)
Record OverviewRow := {
  ov_institution : string;
  ov_total_distance_km : cell;
  ov_available_distance_km : cell
}.

(** What is written to a file, and what is printed. *)
Inductive Table :=
| InstitutionTable (rows : list Row)
| OverviewTable (rows : list OverviewRow).

Inductive Message :=
| Text (s : string)
| LayerNames (names : list string)
| ShowOverview (rows : list OverviewRow)
| ShowTable (rows : list Row).

(** ** The state of a run *)

Record World := {
  gdfs : list GeoDataFrame;                  (* layer objects, by identity *)
  dfs : list (list Row);                     (* table objects, by identity *)
  institution_summary : gmap string (list nat);   (* the accumulator dict *)
  csv_files : list (string * Table);         (* every [to_csv], in order *)
  stdout : list Message                      (* every [print], in order *)
}.

Definition set_gdfs (v : list GeoDataFrame) (w : World) : World :=
  {| gdfs := v; dfs := dfs w; institution_summary := institution_summary w;
     csv_files := csv_files w; stdout := stdout w |}.
Definition set_dfs (v : list (list Row)) (w : World) : World :=
  {| gdfs := gdfs w; dfs := v; institution_summary := institution_summary w;
     csv_files := csv_files w; stdout := stdout w |}.
Definition set_institution_summary (v : gmap string (list nat)) (w : World) : World :=
  {| gdfs := gdfs w; dfs := dfs w; institution_summary := v;
     csv_files := csv_files w; stdout := stdout w |}.
Definition set_csv_files (v : list (string * Table)) (w : World) : World :=
  {| gdfs := gdfs w; dfs := dfs w; institution_summary := institution_summary w;
     csv_files := v; stdout := stdout w |}.
Definition set_stdout (v : list Message) (w : World) : World :=
  {| gdfs := gdfs w; dfs := dfs w; institution_summary := institution_summary w;
     csv_files := csv_files w; stdout := v |}.

(** State and exceptions. *)
Definition M (A : Type) : Type := World → World * result A.

Definition ret {A} (a : A) : M A := λ w, (w, Ok a).
Definition raise {A} (e : string) : M A := λ w, (w, Raise e).
Definition bind {A B} (m : M A) (k : A → M B) : M B :=
  λ w, match m w with
       | (w', Ok a) => k a w'
       | (w', Raise e) => (w', Raise e)
       end.
(** [try: body except Exception as e: handler(e)] *)
Definition try_except {A} (body : M A) (handler : string → M A) : M A :=
  λ w, match body w with
       | (w', Ok a) => (w', Ok a)
       | (w', Raise e) => handler e w'
       end.
Definition lift {A} (r : result A) : M A := λ w, (w, r).

Notation "'let*' x ':=' m 'in' k" := (bind m (λ x, k))
  (at level 10, x name, m at level 100, k at level 200).
Notation "m ';;;' k" := (bind m (λ _, k))
  (at level 100, k at level 200, right associativity).

(** [for x in xs: body(x)] *)
Fixpoint for_each {A} (xs : list A) (body : A → M unit) : M unit :=
  match xs with
  | [] => ret tt
  | x :: rest => body x ;;; for_each rest body
  end.

(** Primitive effects. *)
Definition print (m : Message) : M unit :=
  λ w, (set_stdout (stdout w ++ [m]) w, Ok tt).
Definition to_csv (path : string) (t : Table) : M unit :=
  λ w, (set_csv_files (csv_files w ++ [(path, t)]) w, Ok tt).

Definition new_gdf (g : GeoDataFrame) : M nat :=
  λ w, (set_gdfs (gdfs w ++ [g]) w, Ok (length (gdfs w))).
Definition get_gdf (ref : nat) : M GeoDataFrame :=
  λ w, match gdfs w !! ref with
       | Some g => (w, Ok g)
       | None => (w, Raise "dangling reference")
       end.
Definition update_gdf (ref : nat) (f : GeoDataFrame → GeoDataFrame) : M unit :=
  λ w, match gdfs w !! ref with
       | Some g => (set_gdfs (<[ref := f g]> (gdfs w)) w, Ok tt)
       | None => (w, Raise "dangling reference")
       end.

Definition new_df (rows : list Row) : M nat :=
  λ w, (set_dfs (dfs w ++ [rows]) w, Ok (length (dfs w))).
Definition get_df (ref : nat) : M (list Row) :=
  λ w, match dfs w !! ref with
       | Some rows => (w, Ok rows)
       | None => (w, Raise "dangling reference")
       end.
Definition put_df (ref : nat) (rows : list Row) : M unit :=
  λ w, match dfs w !! ref with
       | Some _ => (set_dfs (<[ref := rows]> (dfs w)) w, Ok tt)
       | None => (w, Raise "dangling reference")
       end.

(** The accumulator dict: [k in d], [d[k] = v], [d[k]], [d[k].append(x)]. *)
Definition summary_contains (k : string) : M bool :=
  λ w, (w, Ok (bool_decide (is_Some (institution_summary w !! k)))).
Definition summary_set (k : string) (v : list nat) : M unit :=
  λ w, (set_institution_summary (<[k := v]> (institution_summary w)) w, Ok tt).
Definition summary_get (k : string) : M (list nat) :=
  λ w, match institution_summary w !! k with
       | Some v => (w, Ok v)
       | None => (w, Raise k)
       end.
Definition summary_append (k : string) (x : nat) : M unit :=
  let* v := summary_get k in summary_set k (v ++ [x]).

(** ** Data-frame operations *)

Definition has_column (name : string) (g : GeoDataFrame) : bool :=
  bool_decide (name ∈ columns g).

Definition add_column (name : string) (cols : list string) : list string :=
  if bool_decide (name ∈ cols) then cols else cols ++ [name].

(** [gdf[name] = ...]: the column is created or overwritten, row by row. *)
Definition assign (name : string) (f : Feature → Feature) (g : GeoDataFrame)
  : GeoDataFrame :=
  {| crs := crs g; columns := add_column name (columns g);
     features := f <$> features g |}.

Definition set_geometry (v : Geometry) (r : Feature) : Feature :=
  {| geometry := v; institution := institution r; campaign := campaign r;
     availability := availability r; total_distance_km := total_distance_km r;
     available_distance_km := available_distance_km r |}.
Definition set_campaign (v : option string) (r : Feature) : Feature :=
  {| geometry := geometry r; institution := institution r; campaign := v;
     availability := availability r; total_distance_km := total_distance_km r;
     available_distance_km := available_distance_km r |}.
Definition set_availability (v : option string) (r : Feature) : Feature :=
  {| geometry := geometry r; institution := institution r; campaign := campaign r;
     availability := v; total_distance_km := total_distance_km r;
     available_distance_km := available_distance_km r |}.
Definition set_total_distance_km (v : Z) (r : Feature) : Feature :=
  {| geometry := geometry r; institution := institution r; campaign := campaign r;
     availability := availability r; total_distance_km := v;
     available_distance_km := available_distance_km r |}.
Definition set_available_distance_km (v : Z) (r : Feature) : Feature :=
  {| geometry := geometry r; institution := institution r; campaign := campaign r;
     availability := availability r; total_distance_km := total_distance_km r;
     available_distance_km := v |}.

Definition set_row_total (v : cell) (r : Row) : Row :=
  {| row_institution := row_institution r; row_campaign := row_campaign r;
     row_total_distance_km := v;
     row_available_distance_km := row_available_distance_km r;
     row_availability := row_availability r |}.
Definition set_row_available (v : cell) (r : Row) : Row :=
  {| row_institution := row_institution r; row_campaign := row_campaign r;
     row_total_distance_km := row_total_distance_km r;
     row_available_distance_km := v;
     row_availability := row_availability r |}.
Definition set_ov_total (v : cell) (r : OverviewRow) : OverviewRow :=
  {| ov_institution := ov_institution r; ov_total_distance_km := v;
     ov_available_distance_km := ov_available_distance_km r |}.
Definition set_ov_available (v : cell) (r : OverviewRow) : OverviewRow :=
  {| ov_institution := ov_institution r;
     ov_total_distance_km := ov_total_distance_km r;
     ov_available_distance_km := v |}.

Definition sumZ (l : list Z) : Z := foldr Z.add 0 l.

(** ['sum'] over a column: integers add, strings concatenate, a mix is a
    type error. *)
Definition cell_add (a b : cell) : result cell :=
  match a, b with
  | CInt x, CInt y => Ok (CInt (x + y))
  | CStr x, CStr y => Ok (CStr (String.append x y))
  | _, _ => Raise "unsupported operand type(s) for +"
  end.
Fixpoint sum_from (acc : cell) (cells : list cell) : result cell :=
  match cells with
  | [] => Ok acc
  | c :: rest =>
      match cell_add acc c with
      | Ok acc' => sum_from acc' rest
      | Raise e => Raise e
      end
  end.
Definition sum_cells (cells : list cell) : result cell :=
  match cells with
  | [] => Ok (CInt 0)
  | c :: rest => sum_from c rest
  end.

(** [column.apply(format_with_commas)] *)
Fixpoint apply_format (cells : list cell) : result (list cell) :=
  match cells with
  | [] => Ok []
  | c :: rest =>
      match format_with_commas c with
      | Ok s =>
          match apply_format rest with
          | Ok out => Ok (CStr s :: out)
          | Raise e => Raise e
          end
      | Raise e => Raise e
      end
  end.

(** Group keys come out sorted; strings compare by code unit, pairs
    lexicographically. *)
Definition key_le (k1 k2 : string * string) : Prop :=
  match String.compare k1.1 k2.1 with
  | Lt => True
  | Eq => String.le k1.2 k2.2
  | Gt => False
  end.
#[global] Instance key_le_dec : RelDecision key_le.
Proof. intros k1 k2. unfold key_le. destruct (String.compare k1.1 k2.1); apply _. Defined.

(** A record takes part in the grouping only if both keys are non-null. *)
Definition group_key (r : Feature) : option (string * string) :=
  match institution r, campaign r with
  | Some i, Some c => Some (i, c)
  | _, _ => None
  end.

(** [gdf.groupby(['institution', 'campaign']).agg({... 'sum'}).reset_index()],
    lines 68-71. *)
Definition groupby_institution_campaign (g : GeoDataFrame) : list Row :=
  let keys := merge_sort key_le (remove_dups (omap group_key (features g))) in
  (λ k,
     let members := filter (λ r, group_key r = Some k) (features g) in
     {| row_institution := k.1; row_campaign := k.2;
        row_total_distance_km := CInt (sumZ (total_distance_km <$> members));
        row_available_distance_km := CInt (sumZ (available_distance_km <$> members));
        row_availability := None |}) <$> keys.

(** [grouped.groupby('institution')], line 74: the groups, in key order. *)
Definition groupby_institution (rows : list Row) : list (string * list Row) :=
  (λ k, (k, filter (λ r, row_institution r = k) rows))
    <$> merge_sort String.le (remove_dups (row_institution <$> rows)).

(** [df.groupby('institution').agg({... 'sum'}).reset_index()], lines 139-142. *)
Fixpoint agg_groups (groups : list (string * list Row)) : result (list OverviewRow) :=
  match groups with
  | [] => Ok []
  | (k, members) :: rest =>
      match sum_cells (row_total_distance_km <$> members),
            sum_cells (row_available_distance_km <$> members),
            agg_groups rest with
      | Ok t, Ok a, Ok out =>
          Ok ({| ov_institution := k; ov_total_distance_km := t;
                 ov_available_distance_km := a |} :: out)
      | Raise e, _, _ => Raise e
      | _, Raise e, _ => Raise e
      | _, _, Raise e => Raise e
      end
  end.
Definition groupby_institution_sum (rows : list Row) : result (list OverviewRow) :=
  agg_groups (groupby_institution rows).

(** [os.path.join(a, b)] on a POSIX system. *)
Fixpoint ends_with_slash (s : string) : bool :=
  match s with
  | EmptyString => false
  | String c EmptyString => bool_decide (c = "/"%char)
  | String _ rest => ends_with_slash rest
  end.
Definition path_join (a b : string) : string :=
  match b with
  | String "/"%char _ => b
  | _ => if bool_decide (a = "") || ends_with_slash a
         then String.append a b
         else String.append a (String.append "/" b)
  end.

(** Frames read by reference. *)
Fixpoint get_dfs (refs : list nat) : M (list (list Row)) :=
  match refs with
  | [] => ret []
  | r :: rest =>
      let* rows := get_df r in
      let* others := get_dfs rest in
      ret (rows :: others)
  end.

(** [pd.concat(frames, ignore_index=True)]: a new frame; an empty list of
    frames is a [ValueError]. *)
Definition pd_concat (refs : list nat) : M nat :=
  match refs with
  | [] => raise "No objects to concatenate"
  | _ => let* frames := get_dfs refs in new_df (concat frames)
  end.

(** [df[col] = df[col].apply(format_with_commas)]: the column of the object
    [df] is overwritten in place. *)
Definition format_column (get : Row → cell) (set : cell → Row → Row) (df : nat)
  : M unit :=
  let* rows := get_df df in
  let* formatted := lift (apply_format (get <$> rows)) in
  put_df df (zip_with set formatted rows).

(** ** The script *)

Definition EPSG_3031 : string := "EPSG:3031".

(** [determine_availability], lines 24-30. *)
Definition determine_availability (row : Feature) : string :=
  if bool_decide (availability row = Some "s") then "yes"
  else if bool_decide (availability row = Some "u") then "no"
  else "outdated".

(** What can be read from disk: the two preliminary reads of [main], the
    layer listing and each layer by name.  A failed read is [Raise e]. *)
Record Files := {
  read_default : result GeoDataFrame;
  read_map : result GeoDataFrame;
  listlayers : result (list string);
  read_layer : string → result GeoDataFrame
}.

Definition newline : string := String (ascii_of_nat 10) "".

Section Engine.
Context `{GeoLib}.

Definition reproject (src dst : string) (g : Geometry) : Geometry :=
  match g with
  | Point c => Point (transform src dst c)
  | LineString coords => LineString (transform src dst <$> coords)
  | MultiPoint geoms => MultiPoint (transform src dst <$> geoms)
  | Polygon shell => Polygon (transform src dst <$> shell)
  | MultiLineString lines => MultiLineString ((λ line : list Coord, transform src dst <$> line) <$> lines)
  | NoGeometry => NoGeometry
  end.

(** [gdf.set_crs(target, inplace=True)]: the object itself is changed;
    no coordinate is touched. *)
Definition set_crs_inplace (gdf : nat) (target : string) : M unit :=
  update_gdf gdf (λ g, {| crs := Some target; columns := columns g;
                          features := features g |}).

(** [gdf.to_crs(target)]: a new object; every geometry is reprojected. *)
Definition to_crs (gdf : nat) (target : string) : M nat :=
  let* g := get_gdf gdf in
  match crs g with
  | None => raise "Cannot transform naive geometries."
  | Some src =>
      new_gdf {| crs := Some target; columns := columns g;
                 features := (λ r, set_geometry (reproject src target (geometry r)) r)
                               <$> features g |}
  end.

(** Lines 43-48.  The result is the object the name [gdf] is bound to
    afterwards. *)
Definition normalize_crs (gdf : nat) : M nat :=
  let* g := get_gdf gdf in
  (if bool_decide (crs g = None) then set_crs_inplace gdf EPSG_3031 else ret tt) ;;;
  let* g := get_gdf gdf in
  if bool_decide (crs g ≠ Some EPSG_3031) then to_crs gdf EPSG_3031 else ret gdf.

(** Lines 51-65, as functions on the layer's content. *)
Definition add_total_distance (g : GeoDataFrame) : GeoDataFrame :=
  assign "total_distance_km"
    (λ r, set_total_distance_km (calculate_distance (geometry r)) r) g.

Definition add_availability (g : GeoDataFrame) : GeoDataFrame :=
  if has_column "availability" g then
    let g1 :=
      assign "available_distance_km"
        (λ row, set_available_distance_km
                  (if bool_decide (availability row = Some "s")
                   then calculate_distance (geometry row) else 0) row) g in
    assign "availability"
      (λ row, set_availability (Some (determine_availability row)) row) g1
  else
    let g1 := assign "available_distance_km" (set_available_distance_km 0) g in
    assign "availability" (set_availability (Some "outdated")) g1.

Definition add_campaign (g : GeoDataFrame) : GeoDataFrame :=
  if negb (has_column "campaign" g)
  then assign "campaign" (set_campaign (Some "Unknown")) g
  else g.

Definition classify (g : GeoDataFrame) : GeoDataFrame :=
  add_campaign (add_availability (add_total_distance g)).

(** The body of the loop of lines 74-98. *)
Definition institution_step (statistics_folder : string)
    (group : string * list Row) : M unit :=
  let institution := group.1 in
  let* institution_data := new_df group.2 in
  let* present := summary_contains institution in
  (if negb present then summary_set institution [] else ret tt) ;;;
  summary_append institution institution_data ;;;
  let* batches := summary_get institution in
  let* institution_df := pd_concat batches in
  let* rows := get_df institution_df in
  let* total := lift (sum_cells (row_total_distance_km <$> rows)) in
  let* available := lift (sum_cells (row_available_distance_km <$> rows)) in
  let* institution_total :=
    new_df [ {| row_institution := institution; row_campaign := "Total";
                row_total_distance_km := total;
                row_available_distance_km := available;
                row_availability := Some "N/A" |} ] in
  let* institution_df := pd_concat [institution_df; institution_total] in
  format_column row_total_distance_km set_row_total institution_df ;;;
  format_column row_available_distance_km set_row_available institution_df ;;;
  let institution_output_path :=
    path_join statistics_folder
      (String.append "statistics_" (String.append institution ".csv")) in
  let* rows := get_df institution_df in
  to_csv institution_output_path (InstitutionTable rows) ;;;
  print (Text (String.append "Saved statistics for "
                 (String.append institution
                    (String.append " to " institution_output_path)))).

(** [process_layer], lines 36-100.  [institution_summary] is the dict of
    the run's state; the result is [None] or a reference to [grouped]. *)
Definition process_layer (gdf : nat) (statistics_folder : string)
  : M (option nat) :=
  let* g := get_gdf gdf in
  if negb (has_column "institution" g) then ret None
  else
    print (Text "Processing layer") ;;;
    let* gdf := normalize_crs gdf in
    update_gdf gdf classify ;;;
    let* g := get_gdf gdf in
    let* grouped := new_df (groupby_institution_campaign g) in
    let* rows := get_df grouped in
    for_each (groupby_institution rows) (institution_step statistics_folder) ;;;
    ret (Some grouped).

Definition read_file (r : result GeoDataFrame) : M nat :=
  let* g := lift r in new_gdf g.

(** The body of the loop of lines 126-133. *)
Definition layer_step (files : Files) (statistics_folder : string)
    (all_statistics : list nat) (layer : string) : M (list nat) :=
  try_except
    (let* gdf := read_file (read_layer files layer) in
     let* grouped := process_layer gdf statistics_folder in
     match grouped with
     | Some ref => ret (all_statistics ++ [ref])%list
     | None => ret all_statistics
     end)
    (λ e,
       print (Text (String.append "Skipping layer "
                      (String.append layer
                         (String.append " due to read error: " e)))) ;;;
       ret all_statistics).

Fixpoint layers_loop (files : Files) (statistics_folder : string)
    (all_statistics : list nat) (layers : list string) : M (list nat) :=
  match layers with
  | [] => ret all_statistics
  | layer :: rest =>
      let* all_statistics := layer_step files statistics_folder all_statistics layer in
      layers_loop files statistics_folder all_statistics rest
  end.

(** Lines 135-159. *)
Definition overview (statistics_folder : string) (all_statistics : list nat)
  : M unit :=
  let* all_statistics_df := pd_concat all_statistics in
  let* rows := get_df all_statistics_df in
  let* overview_df := lift (groupby_institution_sum rows) in
  let* totals := lift (apply_format (ov_total_distance_km <$> overview_df)) in
  let overview_df := zip_with set_ov_total totals overview_df in
  let* availables := lift (apply_format (ov_available_distance_km <$> overview_df)) in
  let overview_df := zip_with set_ov_available availables overview_df in
  let overview_output_path := path_join statistics_folder "institution_overview.csv" in
  to_csv overview_output_path (OverviewTable overview_df) ;;;
  print (Text (String.append "Saved institution overview statistics to "
                 overview_output_path)) ;;;
  print (Text (String.append newline "Institution Overview Statistics:")) ;;;
  print (ShowOverview overview_df) ;;;
  print (Text (String.append newline "Complete statistics table:")) ;;;
  print (ShowTable rows).

(** [main], lines 102-159.  Creating the output folders is left out. *)
Definition main (files : Files) (output_folder statistics_folder : string)
  : M unit :=
  let* fp := read_file (read_default files) in
  let* mp := read_file (read_map files) in
  let* listed :=
    try_except
      (let* layers := lift (listlayers files) in
       (if bool_decide (layers = [])
        then raise "No layers found in the GeoPackage." else ret tt) ;;;
       print (Text "Layers in the GeoPackage:") ;;;
       print (LayerNames layers) ;;;
       ret (Some layers))
      (λ e,
         print (Text (String.append "Error listing layers in the GeoPackage: " e)) ;;;
         ret None) in
  match listed with
  | None => ret tt
  | Some layers =>
      (λ w, (set_institution_summary ∅ w, Ok tt)) ;;;
      let* all_statistics := layers_loop files statistics_folder [] layers in
      overview statistics_folder all_statistics
  end.

End Engine.

(** ** A concrete geometry library

    To evaluate the script on concrete layers an instance of [GeoLib] is
    needed.  This one measures a path by the sum of the absolute coordinate
    differences of consecutive points and reprojects by the identity. *)

Fixpoint taxicab (cs : list Coord) : Q :=
  match cs with
  | [] => 0
  | a :: rest =>
      match rest with
      | [] => 0
      | b :: _ => (Qabs (b.1 - a.1) + Qabs (b.2 - a.2) + taxicab rest)%Q
      end
  end.

Definition taxicab_lib : GeoLib.
Proof.
  refine {| length_of := taxicab; transform := λ _ _ c, c |}.
  intros cs.
  induction cs as [|a [|b rest] IH]; simpl in *; try apply Qle_refl.
  pose proof (Qabs_nonneg (b.1 - a.1)).
  pose proof (Qabs_nonneg (b.2 - a.2)).
  rewrite <- (Qplus_0_l 0).
  apply Qplus_le_compat; [|exact IH].
  rewrite <- (Qplus_0_l 0). by apply Qplus_le_compat.
Defined.

(** * Specification-side definitions

    What the specification speaks about: the rows a layer contributes, the history
    the accumulator holds, and the worlds the script leaves behind. *)

Section Specification.
Context `{GeoLib}.


(** The availability class the specification assigns to a raw code. *)
Definition availability_class (raw : option string) : string :=
  if bool_decide (raw = Some "s") then "yes"
  else if bool_decide (raw = Some "u") then "no"
  else "outdated".

(** What [classify] does to one record, given which columns the layer has. *)
Definition classify_feature (has_availability has_campaign : bool) (r : Feature)
  : Feature :=
  {| geometry := geometry r;
     institution := institution r;
     campaign := if has_campaign then campaign r else Some "Unknown";
     availability :=
       Some (if has_availability then availability_class (availability r)
             else "outdated");
     total_distance_km := calculate_distance (geometry r);
     available_distance_km :=
       if has_availability && bool_decide (availability r = Some "s")
       then calculate_distance (geometry r) else 0 |}.

(** A CampaignAggregate: the distances of one (institution, campaign) group
    of one layer, as integers. *)
Record CampaignAggregate := {
  agg_institution : string;
  agg_campaign : string;
  agg_total : Z;
  agg_available : Z
}.

(** The table row that holds an aggregate: integer cells, no availability. *)
Definition to_row (a : CampaignAggregate) : Row :=
  {| row_institution := agg_institution a; row_campaign := agg_campaign a;
     row_total_distance_km := CInt (agg_total a);
     row_available_distance_km := CInt (agg_available a);
     row_availability := None |}.

(** The aggregates of a classified layer, in key order. *)
Definition campaign_aggregates (g : GeoDataFrame) : list CampaignAggregate :=
  (λ k,
     let members := filter (λ r, group_key r = Some k) (features g) in
     {| agg_institution := k.1; agg_campaign := k.2;
        agg_total := sumZ (total_distance_km <$> members);
        agg_available := sumZ (available_distance_km <$> members) |})
    <$> merge_sort key_le (remove_dups (omap group_key (features g))).

(** The institutions of a list of aggregates, in key order, and the rows of
    one institution. *)
Definition institutions (aggs : list CampaignAggregate) : list string :=
  merge_sort String.le (remove_dups (agg_institution <$> aggs)).

Definition rows_for (k : string) (aggs : list CampaignAggregate)
  : list CampaignAggregate :=
  filter (λ a, agg_institution a = k) aggs.

(** The synthetic row: the sums of the given aggregates. *)
Definition total_row (k : string) (aggs : list CampaignAggregate) : Row :=
  {| row_institution := k; row_campaign := "Total";
     row_total_distance_km := CInt (sumZ (agg_total <$> aggs));
     row_available_distance_km := CInt (sumZ (agg_available <$> aggs));
     row_availability := Some "N/A" |}.

(** A row as it is emitted: integer cells shown with thousands separators. *)
Definition shown (c : cell) : cell :=
  match c with
  | CInt z => CStr (format_int z)
  | CStr s => CStr s
  end.

Definition emit (r : Row) : Row :=
  {| row_institution := row_institution r; row_campaign := row_campaign r;
     row_total_distance_km := shown (row_total_distance_km r);
     row_available_distance_km := shown (row_available_distance_km r);
     row_availability := row_availability r |}.

(** The snapshot of an institution whose history is [batches]: every raw
    row, batch after batch, then one total row over exactly those rows. *)
Definition snapshot (k : string) (batches : list (list CampaignAggregate))
  : list Row :=
  emit <$> ((to_row <$> concat batches) ++ [total_row k (concat batches)])%list.

(** The file of institution [k] and the line printed after writing it. *)
Definition statistics_path (statistics_folder k : string) : string :=
  path_join statistics_folder
    (String.append "statistics_" (String.append k ".csv")).

Definition saved_message (statistics_folder k : string) : Message :=
  Text (String.append "Saved statistics for "
          (String.append k
             (String.append " to " (statistics_path statistics_folder k)))).

(** The accumulator holds [hist] in world [w]: the dict has the same keys,
    and the references stored under a key lead to the frames of that key's
    batches, integer cells and all. *)
Definition stores (w : World) (refs : list nat)
    (batches : list (list CampaignAggregate)) : Prop :=
  Forall2 (λ ref b, dfs w !! ref = Some (to_row <$> b)) refs batches.

(** [summary_holds w hist]: key by key, the dict of [w] stores [hist]. *)
Definition summary_holds (w : World)
    (hist : gmap string (list (list CampaignAggregate))) : Prop :=
  ∀ k, option_Forall2 (stores w) (institution_summary w !! k) (hist !! k).

(** The content of the object [gdf] names after lines 43-48. *)
Definition normalized (g : GeoDataFrame) : GeoDataFrame :=
  match crs g with
  | None => {| crs := Some EPSG_3031; columns := columns g;
               features := features g |}
  | Some src =>
      if bool_decide (src = EPSG_3031) then g
      else {| crs := Some EPSG_3031; columns := columns g;
              features := (λ r, set_geometry (reproject src EPSG_3031 (geometry r)) r)
                            <$> features g |}
  end.

(** The CampaignAggregate rows a layer contributes. *)
Definition aggregate (g : GeoDataFrame) : list CampaignAggregate :=
  campaign_aggregates (classify (normalized g)).

(** The cell holds an integer. *)
Definition is_int (c : cell) : Prop :=
  match c with CInt _ => True | CStr _ => False end.

(** The world after the loop body of lines 74-98 has run for institution
    [k], whose rows in this layer are [batch] and whose history so far is
    [earlier]: four new frames (the group, the concatenated history, the
    total, the table that is formatted and written), one more reference
    under [k], one file written, one line printed. *)
Definition after_institution (statistics_folder k : string)
    (batch : list CampaignAggregate) (earlier : list (list CampaignAggregate))
    (w : World) : World :=
  let batches := (earlier ++ [batch])%list in
  {| gdfs := gdfs w;
     dfs := dfs w ++ [to_row <$> batch; to_row <$> concat batches;
                      [total_row k (concat batches)]; snapshot k batches];
     institution_summary :=
       <[k := (default [] (institution_summary w !! k) ++ [length (dfs w)])%list]>
         (institution_summary w);
     csv_files := csv_files w ++
       [(statistics_path statistics_folder k, InstitutionTable (snapshot k batches))];
     stdout := stdout w ++ [saved_message statistics_folder k] |}.

(** The history after institution [k] received [batch]. *)
Definition record_batch (k : string) (batch : list CampaignAggregate)
    (hist : gmap string (list (list CampaignAggregate)))
  : gmap string (list (list CampaignAggregate)) :=
  <[k := default [] (hist !! k) ++ [batch]]> hist.

(** The loop of lines 74-98 over the institutions [ks] of the aggregates
    [aggs], on the world and on the history it holds. *)
Fixpoint accumulate (statistics_folder : string) (aggs : list CampaignAggregate)
    (ks : list string)
    (st : World * gmap string (list (list CampaignAggregate)))
  : World * gmap string (list (list CampaignAggregate)) :=
  match ks with
  | [] => st
  | k :: rest =>
      accumulate statistics_folder aggs rest
        (after_institution statistics_folder k (rows_for k aggs)
           (default [] (st.2 !! k)) st.1,
         record_batch k (rows_for k aggs) st.2)
  end.

(** Whether lines 47-48 reproject the layer. *)
Definition reprojects (g : GeoDataFrame) : bool :=
  match crs g with
  | Some src => negb (bool_decide (src = EPSG_3031))
  | None => false
  end.

(** After lines 43-48: the object [gdf] is bound to, and the layer store. *)
Definition normalized_ref (gdf : nat) (g : GeoDataFrame)
    (store : list GeoDataFrame) : nat :=
  if reprojects g then length store else gdf.

Definition normalized_store (gdf : nat) (g : GeoDataFrame)
    (store : list GeoDataFrame) : list GeoDataFrame :=
  match crs g with
  | None => <[gdf := normalized g]> store
  | Some _ => if reprojects g then store ++ [normalized g] else store
  end.

(** The world when the loop over institutions starts: the layer has been
    normalised and classified, [grouped] has been created. *)
Definition layer_prepared (gdf : nat) (g : GeoDataFrame) (w : World) : World :=
  {| gdfs := <[normalized_ref gdf g (gdfs w) := classify (normalized g)]>
               (normalized_store gdf g (gdfs w));
     dfs := dfs w ++ [to_row <$> aggregate g];
     institution_summary := institution_summary w;
     csv_files := csv_files w;
     stdout := stdout w ++ [Text "Processing layer"] |}.

(** The world and the history after [process_layer] on a layer with an
    institution column. *)
Definition after_layer (statistics_folder : string) (gdf : nat)
    (g : GeoDataFrame)
    (st : World * gmap string (list (list CampaignAggregate)))
  : World * gmap string (list (list CampaignAggregate)) :=
  accumulate statistics_folder (aggregate g) (institutions (aggregate g))
    (layer_prepared gdf g st.1, st.2).









(** The files one usable layer adds: for each of its institutions, in key
    order, the snapshot of the history with this layer's batch appended. *)
Definition layer_snapshots (statistics_folder : string)
    (hist : gmap string (list (list CampaignAggregate))) (g : GeoDataFrame)
  : list (string * Table) :=
  (λ k, (statistics_path statistics_folder k,
         InstitutionTable
           (snapshot k (default [] (hist !! k) ++ [rows_for k (aggregate g)]))))
    <$> institutions (aggregate g).



Definition overview_path (statistics_folder : string) : string :=
  path_join statistics_folder "institution_overview.csv".



(** The world when [main] returns because no layer is listed. *)
Definition main_halted (d m : GeoDataFrame) (e : string) (w : World) : World :=
  {| gdfs := gdfs w ++ [d; m];
     dfs := dfs w;
     institution_summary := institution_summary w;
     csv_files := csv_files w;
     stdout := stdout w ++
       [Text (String.append "Error listing layers in the GeoPackage: " e)] |}.

(** The same files, listing the layers in another order. *)
Definition relisted (files : Files) (layers : list string) : Files :=
  {| read_default := read_default files; read_map := read_map files;
     listlayers := Ok layers; read_layer := read_layer files |}.

(** "The call returns an empty sequence of rows": its result is a frame,
    and that frame has no row. *)
Definition returns_empty_sequence (r : World * result (option nat)) : Prop :=
  ∃ ref, r.2 = Ok (Some ref) ∧ dfs r.1 !! ref = Some [].

(** The cell holds a string. *)
Definition is_str (c : cell) : Prop :=
  match c with CStr _ => True | CInt _ => False end.
End Specification.

(** ** Sample data *)

Definition sample_feature (g : Geometry) (i c a : option string) : Feature :=
  {| geometry := g; institution := i; campaign := c; availability := a;
     total_distance_km := 0; available_distance_km := 0 |}.

(** Layer A: no reference system; one available line of 5000 m. *)
Definition layer_a : GeoDataFrame :=
  {| crs := None;
     columns := ["geometry"; "institution"; "campaign"; "availability"];
     features :=
       [sample_feature (LineString [(0, 0); (5000, 0)]%Q)
          (Some "X") (Some "2020") (Some "s")] |}.

(** Layer B: another reference system, no availability column. *)
Definition layer_b : GeoDataFrame :=
  {| crs := Some "EPSG:4326";
     columns := ["geometry"; "institution"; "campaign"];
     features :=
       [sample_feature (LineString [(0, 0); (3000, 0)]%Q)
          (Some "X") (Some "2021") None;
        sample_feature (MultiPoint [(0, 0); (1500, 0)]%Q)
          (Some "Y") (Some "2021") None] |}.

(** A layer without institution column, and one with the column but no
    record. *)
Definition layer_plain : GeoDataFrame :=
  {| crs := Some EPSG_3031; columns := ["geometry"; "campaign"];
     features := [sample_feature (Point (0, 0)%Q) None (Some "2020") None] |}.

Definition layer_empty : GeoDataFrame :=
  {| crs := Some EPSG_3031; columns := ["geometry"; "institution"];
     features := [] |}.

(** A package with layers A, B, an unreadable layer C and the plain D. *)
Definition sample_files : Files :=
  {| read_default := Ok layer_a;
     read_map := Ok layer_plain;
     listlayers := Ok ["A"; "B"; "C"; "D"];
     read_layer := λ name,
       if bool_decide (name = "A") then Ok layer_a
       else if bool_decide (name = "B") then Ok layer_b
       else if bool_decide (name = "D") then Ok layer_plain
       else if bool_decide (name = "E") then Ok layer_empty
       else Raise "cannot open layer" |}.

Definition empty_world : World :=
  {| gdfs := []; dfs := []; institution_summary := ∅;
     csv_files := []; stdout := [] |}.

Definition world_with (g : GeoDataFrame) : World :=
  {| gdfs := [g]; dfs := []; institution_summary := ∅;
     csv_files := []; stdout := [] |}.

(** * Further definitions *)

(** The grouping key of a row of an aggregate table. *)
Definition row_key (r : Row) : string * string :=
  (row_institution r, row_campaign r).

(** What is left of a formatted number once the separators are taken out. *)
Definition strip_commas (s : string) : string :=
  String.string_of_list_ascii
    (filter (λ c : ascii, c ≠ ","%char) (String.list_ascii_of_string s)).


Section Counted.
Context `{GeoLib}.


End Counted.

(** * The script institution-statistics.py

    The second script is the same pipeline written at top level, with its
    paths fixed.  Its helper functions (lines 18-41), its classification
    (lines 62-85), its grouping (lines 88-91), its loop over the
    institutions (lines 94-118) and its overview (lines 124-147) are the
    statements of generate_statistics.py, so the definitions above are used
    for them.  What differs is the control flow around them. *)

Module InstitutionStatistics.
Section Script.
Context `{GeoLib}.

(** Line 11. *)
Definition statistics_folder : string := "./data_statistics".

(** The body of the loop of lines 49-121; [continue] ends it with
    [all_statistics] as it was. *)
Definition layer_step (files : Files) (all_statistics : list nat)
    (layer : string) : M (list nat) :=
  let* read :=
    try_except
      (let* gdf := read_file (read_layer files layer) in ret (Some gdf))
      (λ e,
         print (Text (String.append "Skipping layer "
                        (String.append layer
                           (String.append " due to read error: " e)))) ;;;
         ret None) in
  match read with
  | None => ret all_statistics
  | Some gdf =>
      let* g := get_gdf gdf in
      if negb (has_column "institution" g) then
        print (Text (String.append "Skipping layer "
                       (String.append layer
                          " as it does not contain 'institution' column."))) ;;;
        ret all_statistics
      else
        print (Text (String.append "Processing layer: " layer)) ;;;
        let* gdf := normalize_crs gdf in
        update_gdf gdf classify ;;;
        let* g := get_gdf gdf in
        let* grouped := new_df (groupby_institution_campaign g) in
        let* rows := get_df grouped in
        for_each (groupby_institution rows) (institution_step statistics_folder) ;;;
        ret (all_statistics ++ [grouped])%list
  end.

Fixpoint layers_loop (files : Files) (all_statistics : list nat)
    (layers : list string) : M (list nat) :=
  match layers with
  | [] => ret all_statistics
  | layer :: rest =>
      let* all_statistics := layer_step files all_statistics layer in
      layers_loop files all_statistics rest
  end.

(** The script, lines 43-147.  Creating the output folders is left out. *)
Definition script (files : Files) : M unit :=
  let* layers := lift (listlayers files) in
  (λ w, (set_institution_summary ∅ w, Ok tt)) ;;;
  let* all_statistics := layers_loop files [] layers in
  overview statistics_folder all_statistics.

End Script.
End InstitutionStatistics.


(** ** More sample data *)

(** Layer B with its records in the opposite order. *)
Definition layer_b_reversed : GeoDataFrame :=
  {| crs := crs layer_b; columns := columns layer_b;
     features := reverse (features layer_b) |}.


Definition sample_files_no_map : Files :=
  {| read_default := Ok layer_a; read_map := Raise "no such file";
     listlayers := listlayers sample_files;
     read_layer := read_layer sample_files |}.

(** * Properties *)

(** ** The helpers on concrete values *)

Example format_int_1234567 : format_int 1234567 = "1,234,567".
Proof. reflexivity. Qed.
Example format_int_neg : format_int (-1000) = "-1,000".
Proof. reflexivity. Qed.
Example format_int_small : format_int 999 = "999".
Proof. reflexivity. Qed.
Example py_round_half_down : py_round (5 # 2) = 2.
Proof. reflexivity. Qed.
Example py_round_half_up : py_round (7 # 2) = 4.
Proof. reflexivity. Qed.
Example py_round_neg : py_round (- (5 # 2)) = -2.
Proof. reflexivity. Qed.

(** ** Rounding and distance *)

Lemma py_round_floor_cases x :
  py_round x = Qfloor x ∨ py_round x = Qfloor x + 1.
Proof.
  unfold py_round.
  destruct (x - inject_Z (Qfloor x) ?= 1 # 2)%Q; [|auto..].
  destruct (Z.even (Qfloor x)); auto.
Qed.


Lemma py_round_nonneg x : (0 <= x)%Q → 0 ≤ py_round x.
Proof.
  intros Hx.
  assert (0 ≤ Qfloor x) as Hf.
  { change 0 with (Qfloor 0). by apply Qfloor_resp_le. }
  destruct (py_round_floor_cases x) as [-> | ->]; lia.
Qed.

Section DistanceProperties.
Context `{GeoLib}.

Lemma calculate_distance_nonneg g : 0 ≤ calculate_distance g.
Proof.
  assert (∀ cs, 0 ≤ py_round (length_of cs / 1000)) as Hr.
  { intros cs. apply py_round_nonneg.
    pose proof (length_of_nonneg cs).
    apply Qle_shift_div_l; [reflexivity|]. by rewrite Qmult_0_l. }
  destruct g; simpl; auto; lia.
Qed.


End DistanceProperties.

(** ** Classification *)

Lemma elem_of_add_column n m cols : n ∈ add_column m cols ↔ n = m ∨ n ∈ cols.
Proof.
  unfold add_column. case_bool_decide as Hm.
  - split; [auto|]. intros [-> | ?]; done.
  - rewrite elem_of_app, list_elem_of_singleton. tauto.
Qed.

Lemma has_column_assign n m f g :
  has_column n (assign m f g) = bool_decide (n = m) || has_column n g.
Proof.
  unfold has_column. simpl.
  apply eq_true_iff_eq. rewrite orb_true_iff, !bool_decide_eq_true.
  apply elem_of_add_column.
Qed.

Lemma features_assign m f g : features (assign m f g) = f <$> features g.
Proof. reflexivity. Qed.

Lemma crs_assign m f g : crs (assign m f g) = crs g.
Proof. reflexivity. Qed.

Section ClassifyProperties.
Context `{GeoLib}.

Lemma classify_features g :
  features (classify g) =
  classify_feature (has_column "availability" g) (has_column "campaign" g)
    <$> features g.
Proof.
  unfold classify, add_campaign, add_availability, add_total_distance.
  rewrite !has_column_assign. simpl bool_decide. rewrite !orb_false_l.
  destruct (has_column "availability" g) eqn:Ha.
  - rewrite !has_column_assign, !orb_false_l.
    destruct (has_column "campaign" g) eqn:Hc; simpl;
      rewrite <- !list_fmap_compose; apply list_fmap_ext; intros i r _;
      destruct r; reflexivity.
  - rewrite !has_column_assign, !orb_false_l.
    destruct (has_column "campaign" g) eqn:Hc; simpl;
      rewrite <- !list_fmap_compose; apply list_fmap_ext; intros i r _;
      destruct r; reflexivity.
Qed.

End ClassifyProperties.

Section ClassifyStatements.
Context `{GeoLib}.


(** C5.  Every classified record has exactly one class among [yes], [no],
    [outdated]; both distances are non-negative; the available distance is
    at most the total distance; a positive available distance implies
    class [yes]. *)
Theorem classified_record_invariant (g : GeoDataFrame) (r' : Feature) :
  r' ∈ features (classify g) →
  (availability r' = Some "yes" ∨ availability r' = Some "no" ∨
   availability r' = Some "outdated") ∧
  0 ≤ total_distance_km r' ∧
  0 ≤ available_distance_km r' ∧
  available_distance_km r' ≤ total_distance_km r' ∧
  (0 < available_distance_km r' → availability r' = Some "yes").
Proof.
  rewrite classify_features.
  intros (r & -> & _)%list_elem_of_fmap. simpl.
  pose proof (calculate_distance_nonneg (geometry r)) as Hd.
  unfold availability_class.
  destruct (has_column "availability" g); simpl;
    repeat case_bool_decide; simplify_eq; repeat split; auto; lia.
Qed.

End ClassifyStatements.

(** ** Evaluating the primitives *)

Lemma sum_from_ints a zs :
  sum_from (CInt a) (CInt <$> zs) = Ok (CInt (a + sumZ zs)).
Proof.
  revert a. induction zs as [|z zs IH]; intros a; simpl.
  - by rewrite Z.add_0_r.
  - rewrite IH. by rewrite Z.add_assoc.
Qed.

Lemma sum_cells_ints zs : sum_cells (CInt <$> zs) = Ok (CInt (sumZ zs)).
Proof. destruct zs as [|z zs]; [done|]. simpl. apply sum_from_ints. Qed.

Lemma apply_format_ints cells :
  Forall is_int cells → apply_format cells = Ok (shown <$> cells).
Proof.
  induction 1 as [|c cells Hc _ IH]; [done|].
  destruct c; [|done]. simpl. by rewrite IH.
Qed.

Lemma zip_with_fmap_same {A B} (f : B → A → A) (g : A → B) (l : list A) :
  zip_with f (g <$> l) l = (λ x, f (g x) x) <$> l.
Proof. induction l as [|x l IH]; csimpl; [done|]. by rewrite IH. Qed.

Lemma filter_to_row k aggs :
  filter (λ r, row_institution r = k) (to_row <$> aggs)
  = to_row <$> rows_for k aggs.
Proof.
  unfold rows_for. induction aggs as [|a aggs IH]; [done|].
  rewrite fmap_cons, !filter_cons. simpl.
  destruct (decide (agg_institution a = k)); simpl; by rewrite IH.
Qed.

Lemma groupby_institution_campaign_to_row g :
  groupby_institution_campaign g = to_row <$> campaign_aggregates g.
Proof.
  unfold groupby_institution_campaign, campaign_aggregates.
  by rewrite <- list_fmap_compose.
Qed.

Lemma groupby_institution_to_row aggs :
  groupby_institution (to_row <$> aggs)
  = (λ k, (k, to_row <$> rows_for k aggs)) <$> institutions aggs.
Proof.
  unfold groupby_institution, institutions.
  rewrite <- list_fmap_compose.
  apply list_fmap_ext. intros _ k _. by rewrite filter_to_row.
Qed.

Lemma bind_Ok {A B} (m : M A) (k : A → M B) w w' a :
  m w = (w', Ok a) → bind m k w = k a w'.
Proof. unfold bind. by intros ->. Qed.


Lemma get_df_run w ref rows :
  dfs w !! ref = Some rows → get_df ref w = (w, Ok rows).
Proof. unfold get_df. by intros ->. Qed.

Lemma get_gdf_run w ref g :
  gdfs w !! ref = Some g → get_gdf ref w = (w, Ok g).
Proof. unfold get_gdf. by intros ->. Qed.

Lemma get_dfs_run w refs frames :
  Forall2 (λ ref rows, dfs w !! ref = Some rows) refs frames →
  get_dfs refs w = (w, Ok frames).
Proof.
  induction 1 as [|ref rows refs frames Href _ IH]; [done|].
  simpl. rewrite (bind_Ok _ _ _ _ _ (get_df_run _ _ _ Href)).
  by rewrite (bind_Ok _ _ _ _ _ IH).
Qed.

Lemma pd_concat_run w refs frames :
  refs ≠ [] →
  Forall2 (λ ref rows, dfs w !! ref = Some rows) refs frames →
  pd_concat refs w
  = (set_dfs (dfs w ++ [concat frames]) w, Ok (length (dfs w))).
Proof.
  intros Hne Hfr. unfold pd_concat. destruct refs; [done|].
  by rewrite (bind_Ok _ _ _ _ _ (get_dfs_run _ _ _ Hfr)).
Qed.

Lemma format_column_run w df rows get set :
  dfs w !! df = Some rows →
  Forall (λ r, is_int (get r)) rows →
  format_column get set df w
  = (set_dfs (<[df := (λ r, set (shown (get r)) r) <$> rows]> (dfs w)) w, Ok tt).
Proof.
  intros Hdf Hint. unfold format_column.
  rewrite (bind_Ok _ _ _ _ _ (get_df_run _ _ _ Hdf)).
  unfold lift, bind at 1.
  rewrite apply_format_ints by by apply Forall_fmap.
  unfold put_df. rewrite Hdf.
  by rewrite <- list_fmap_compose, zip_with_fmap_same.
Qed.

(** ** One institution of one layer *)

Lemma concat_fmap_fmap {A B} (f : A → B) (ls : list (list A)) :
  concat ((λ l : list A, f <$> l) <$> ls) = f <$> concat ls.
Proof.
  induction ls as [|l ls IH]; csimpl; [done|]. by rewrite IH, fmap_app.
Qed.

Lemma insert_snoc {A} (l : list A) x y : <[length l := x]> (l ++ [y]) = l ++ [x].
Proof.
  rewrite insert_app_r_alt by lia. by rewrite Nat.sub_diag.
Qed.

Lemma lookup_snoc {A} (l : list A) x : (l ++ [x]) !! length l = Some x.
Proof. by apply list_lookup_middle. Qed.

Lemma stores_extend w w' refs batches :
  (∀ ref rows, dfs w !! ref = Some rows → dfs w' !! ref = Some rows) →
  stores w refs batches → stores w' refs batches.
Proof.
  intros Hext Hs. eapply Forall2_impl; [exact Hs|].
  intros ref b. apply Hext.
Qed.

Section InstitutionStep.
Context `{GeoLib}.

Lemma institution_step_run w hist statistics_folder k batch :
  summary_holds w hist →
  institution_step statistics_folder (k, to_row <$> batch) w
  = (after_institution statistics_folder k batch (default [] (hist !! k)) w, Ok tt).
Proof.
  intros Hinv. unfold institution_step. cbn [fst snd].
  erewrite bind_Ok by reflexivity.
  erewrite bind_Ok by reflexivity.
  set (n := length (dfs w)).
  set (earlier := default [] (hist !! k)).
  set (old := default [] (institution_summary w !! k)).
  assert (stores w old earlier) as Hold.
  { subst old earlier. specialize (Hinv k).
    destruct Hinv as [refs bs Hs|]; simpl; [done|constructor]. }
  (* the dict after lines 75-78 *)
  assert (∀ K : M unit,
    ((if negb (bool_decide (is_Some
            (institution_summary (set_dfs (dfs w ++ [to_row <$> batch]) w) !! k)))
      then summary_set k [] else ret ());;;
     summary_append k n;;; K) (set_dfs (dfs w ++ [to_row <$> batch]) w)
    = K (set_institution_summary (<[k := old ++ [n]]> (institution_summary w))
           (set_dfs (dfs w ++ [to_row <$> batch]) w))) as Hdict.
  { intros K. cbn [institution_summary set_dfs]. subst old.
    destruct (institution_summary w !! k) as [refs|] eqn:Hk; simpl.
    - erewrite bind_Ok by reflexivity.
      erewrite bind_Ok.
      2:{ unfold summary_append. erewrite bind_Ok.
          2:{ unfold summary_get. cbn [institution_summary set_dfs].
              by rewrite Hk. }
          reflexivity. }
      reflexivity.
    - erewrite bind_Ok by reflexivity.
      erewrite bind_Ok.
      2:{ unfold summary_append. erewrite bind_Ok.
          2:{ unfold summary_get.
              cbn [institution_summary set_dfs set_institution_summary].
              by rewrite lookup_insert_eq. }
          reflexivity. }
      unfold set_institution_summary, set_dfs. cbn.
      by rewrite insert_insert_eq. }
  rewrite Hdict. clear Hdict.
  set (w2 := set_institution_summary _ _).
  erewrite bind_Ok.
  2:{ unfold summary_get. subst w2. cbn [institution_summary set_institution_summary].
      by rewrite lookup_insert_eq. }
  (* the concatenated history *)
  assert (Forall2 (λ ref rows, dfs w2 !! ref = Some rows) (old ++ [n])
            ((λ b : list CampaignAggregate, to_row <$> b) <$> (earlier ++ [batch])))
    as Hframes.
  { rewrite fmap_app. apply Forall2_app.
    - apply Forall2_fmap_r. eapply Forall2_impl; [exact Hold|].
      intros ref b Hb. subst w2. cbn. by apply lookup_app_l_Some.
    - repeat constructor. subst w2 n. cbn. apply lookup_snoc. }
  assert (old ++ [n] ≠ []) as Hne by (by intros [_ ?]%app_eq_nil).
  rewrite (bind_Ok _ _ _ _ _ (pd_concat_run _ _ _ Hne Hframes)).
  rewrite concat_fmap_fmap.
  set (all := concat (earlier ++ [batch])).
  erewrite bind_Ok by (apply get_df_run; cbn; apply lookup_snoc).
  unfold lift at 1. erewrite bind_Ok.
  2:{ rewrite <- list_fmap_compose.
      rewrite (list_fmap_compose agg_total CInt). by rewrite sum_cells_ints. }
  unfold lift at 1. erewrite bind_Ok.
  2:{ rewrite <- list_fmap_compose.
      rewrite (list_fmap_compose agg_available CInt). by rewrite sum_cells_ints. }
  fold (total_row k all).
  erewrite bind_Ok by reflexivity.
  cbn [dfs set_dfs].
  set (D := dfs w2).
  set (w4 := set_dfs ((D ++ [to_row <$> all]) ++ [[total_row k all]]) _).
  assert (Forall2 (λ ref rows, dfs w4 !! ref = Some rows)
            [length D; length (D ++ [to_row <$> all])]
            [to_row <$> all; [total_row k all]]) as Hpair.
  { subst w4. cbn [dfs set_dfs]. repeat constructor.
    - apply lookup_app_l_Some, lookup_snoc.
    - apply lookup_snoc. }
  assert ([length D; length (D ++ [to_row <$> all])] ≠ []) as Hne2 by done.
  rewrite (bind_Ok _ _ _ _ _ (pd_concat_run w4 _ _ Hne2 Hpair)).
  cbn [concat]. rewrite app_nil_r.
  set (table := (to_row <$> all) ++ [total_row k all]).
  assert (Forall (λ r, is_int (row_total_distance_km r) ∧
                       is_int (row_available_distance_km r)) table) as Hint.
  { subst table. apply Forall_app. split.
    - apply Forall_fmap, Forall_true. by intros a.
    - by repeat constructor. }
  erewrite bind_Ok.
  2:{ apply (format_column_run _ _ table).
      - cbn [dfs set_dfs]. apply lookup_snoc.
      - eapply Forall_impl; [exact Hint|]. by intros r [? _]. }
  cbn [dfs set_dfs]. rewrite insert_snoc.
  erewrite bind_Ok.
  2:{ apply (format_column_run _ _
               ((λ r, set_row_total (shown (row_total_distance_km r)) r) <$> table)).
      - cbn [dfs set_dfs]. apply lookup_snoc.
      - apply Forall_fmap. eapply Forall_impl; [exact Hint|]. by intros r [_ ?]. }
  cbn [dfs set_dfs]. rewrite insert_snoc.
  rewrite <- list_fmap_compose.
  erewrite bind_Ok by (apply get_df_run; cbn [dfs set_dfs]; apply lookup_snoc).
  erewrite bind_Ok by reflexivity.
  assert ((λ r, set_row_available (shown (row_available_distance_km r)) r)
          ∘ (λ r, set_row_total (shown (row_total_distance_km r)) r) <$> table
          = snapshot k (earlier ++ [batch])) as ->.
  { unfold snapshot. fold all. fold table. by apply list_fmap_ext. }
  unfold print, after_institution. f_equal.
  subst w4 D w2 old n. cbn. f_equal.
  by rewrite <- !app_assoc.
Qed.

End InstitutionStep.

(** ** All institutions of one layer *)

Lemma after_institution_extends statistics_folder k batch earlier w ref rows :
  dfs w !! ref = Some rows →
  dfs (after_institution statistics_folder k batch earlier w) !! ref = Some rows.
Proof. intros Href. cbn. by apply lookup_app_l_Some. Qed.

Lemma after_institution_holds w hist statistics_folder k batch :
  summary_holds w hist →
  summary_holds
    (after_institution statistics_folder k batch (default [] (hist !! k)) w)
    (record_batch k batch hist).
Proof.
  intros Hinv k'. unfold record_batch. cbn [institution_summary after_institution].
  destruct (decide (k = k')) as [<-|Hne].
  - rewrite !lookup_insert_eq. constructor.
    apply Forall2_app.
    + apply (stores_extend w); [apply after_institution_extends|].
      destruct (Hinv k) as [refs bs Hs|]; simpl; [done|constructor].
    + repeat constructor. cbn. by apply list_lookup_middle.
  - rewrite !lookup_insert_ne by done.
    destruct (Hinv k') as [refs bs Hs|]; constructor.
    by apply (stores_extend w); [apply after_institution_extends|].
Qed.

Section Accumulate.
Context `{GeoLib}.

Lemma for_each_institution_run w hist statistics_folder aggs ks :
  summary_holds w hist →
  for_each ((λ k, (k, to_row <$> rows_for k aggs)) <$> ks)
    (institution_step statistics_folder) w
  = ((accumulate statistics_folder aggs ks (w, hist)).1, Ok tt) ∧
  summary_holds (accumulate statistics_folder aggs ks (w, hist)).1
                (accumulate statistics_folder aggs ks (w, hist)).2.
Proof.
  revert w hist. induction ks as [|k ks IH]; intros w hist Hinv; [done|].
  cbn [fmap list_fmap for_each accumulate fst snd].
  rewrite (bind_Ok _ _ _ _ _ (institution_step_run w hist _ k _ Hinv)).
  apply IH. by apply after_institution_holds.
Qed.

End Accumulate.

(** What the loop leaves behind, field by field. *)
Lemma accumulate_gdfs statistics_folder aggs ks st :
  gdfs (accumulate statistics_folder aggs ks st).1 = gdfs st.1.
Proof. revert st. induction ks as [|k ks IH]; intros st; [done|]. simpl. by rewrite IH. Qed.

Lemma accumulate_extends statistics_folder aggs ks st ref rows :
  dfs st.1 !! ref = Some rows →
  dfs (accumulate statistics_folder aggs ks st).1 !! ref = Some rows.
Proof.
  revert st. induction ks as [|k ks IH]; intros st Href; [done|].
  simpl. apply IH. by apply after_institution_extends.
Qed.


Lemma accumulate_csv_files statistics_folder aggs ks st :
  NoDup ks →
  csv_files (accumulate statistics_folder aggs ks st).1
  = csv_files st.1 ++
    ((λ k, (statistics_path statistics_folder k,
            InstitutionTable
              (snapshot k (default [] (st.2 !! k) ++ [rows_for k aggs]))))
       <$> ks).
Proof.
  revert st. induction ks as [|k0 ks IH]; intros st Hnd.
  - simpl. by rewrite app_nil_r.
  - apply NoDup_cons in Hnd as [Hk0 Hnd]. simpl. rewrite IH by done. simpl.
    rewrite <- app_assoc. simpl. do 2 f_equal.
    apply list_fmap_ext. intros i k Hk. unfold record_batch.
    rewrite lookup_insert_ne; [done|].
    intros ->. apply Hk0. by eapply list_elem_of_lookup_2.
Qed.

(** ** One layer *)

Section Layer.
Context `{GeoLib}.

Lemma set_gdfs_same w : set_gdfs (gdfs w) w = w.
Proof. by destruct w. Qed.

Lemma normalized_lookup gdf g store :
  store !! gdf = Some g →
  normalized_store gdf g store !! normalized_ref gdf g store = Some (normalized g).
Proof.
  intros Hg. unfold normalized_store, normalized_ref, reprojects, normalized.
  destruct (crs g) as [src|] eqn:Hcrs.
  - case_bool_decide; simpl; [done|]. by apply list_lookup_middle.
  - apply list_lookup_insert_eq. by eapply lookup_lt_Some.
Qed.

Lemma normalize_crs_run w gdf g :
  gdfs w !! gdf = Some g →
  normalize_crs gdf w
  = (set_gdfs (normalized_store gdf g (gdfs w)) w,
     Ok (normalized_ref gdf g (gdfs w))).
Proof.
  intros Hg. unfold normalize_crs.
  rewrite (bind_Ok _ _ _ _ _ (get_gdf_run _ _ _ Hg)).
  unfold normalized_store, normalized_ref, reprojects, normalized.
  destruct (crs g) as [src|] eqn:Hcrs.
  - rewrite bool_decide_eq_false_2 by done.
    erewrite bind_Ok by reflexivity.
    rewrite (bind_Ok _ _ _ _ _ (get_gdf_run _ _ _ Hg)). rewrite Hcrs.
    destruct (decide (src = EPSG_3031)) as [->|Hsrc].
    + rewrite bool_decide_eq_false_2 by (by intros Hn; apply Hn).
      rewrite bool_decide_eq_true_2 by done. simpl.
      by rewrite set_gdfs_same.
    + rewrite bool_decide_eq_true_2 by congruence.
      rewrite (bool_decide_eq_false_2 (src = EPSG_3031)) by done. simpl.
      unfold to_crs. rewrite (bind_Ok _ _ _ _ _ (get_gdf_run _ _ _ Hg)).
      by rewrite Hcrs.
  - rewrite bool_decide_eq_true_2 by done.
    erewrite bind_Ok.
    2:{ unfold set_crs_inplace, update_gdf. by rewrite Hg. }
    erewrite bind_Ok.
    2:{ apply get_gdf_run. cbn [gdfs set_gdfs].
        apply list_lookup_insert_eq. by eapply lookup_lt_Some. }
    cbn [crs]. by rewrite bool_decide_eq_false_2 by (by intros Hn; apply Hn).
Qed.

Lemma process_layer_skip w gdf g statistics_folder :
  gdfs w !! gdf = Some g →
  has_column "institution" g = false →
  process_layer gdf statistics_folder w = (w, Ok None).
Proof.
  intros Hg Hcol. unfold process_layer.
  rewrite (bind_Ok _ _ _ _ _ (get_gdf_run _ _ _ Hg)). by rewrite Hcol.
Qed.

Lemma process_layer_run w hist gdf g statistics_folder :
  gdfs w !! gdf = Some g →
  has_column "institution" g = true →
  summary_holds w hist →
  process_layer gdf statistics_folder w
  = ((after_layer statistics_folder gdf g (w, hist)).1, Ok (Some (length (dfs w)))) ∧
  summary_holds (after_layer statistics_folder gdf g (w, hist)).1
                (after_layer statistics_folder gdf g (w, hist)).2.
Proof.
  intros Hg Hcol Hinv. unfold process_layer.
  rewrite (bind_Ok _ _ _ _ _ (get_gdf_run _ _ _ Hg)). rewrite Hcol.
  cbn [negb]. erewrite bind_Ok by reflexivity.
  erewrite bind_Ok by (by apply normalize_crs_run).
  pose proof (normalized_lookup gdf g (gdfs w) Hg) as Hn.
  erewrite bind_Ok.
  2:{ unfold update_gdf. cbn [gdfs set_gdfs set_stdout]. by rewrite Hn. }
  erewrite bind_Ok.
  2:{ apply get_gdf_run. cbn [gdfs set_gdfs set_stdout].
      apply list_lookup_insert_eq. by eapply lookup_lt_Some. }
  erewrite bind_Ok by reflexivity.
  erewrite bind_Ok by (apply get_df_run; cbn [dfs set_dfs]; apply lookup_snoc).
  rewrite groupby_institution_campaign_to_row.
  fold (aggregate g). rewrite groupby_institution_to_row.
  set (w1 := set_dfs _ _).
  assert (w1 = layer_prepared gdf g w) as -> by done.
  assert (summary_holds (layer_prepared gdf g w) hist) as Hinv1.
  { intros k. cbn [institution_summary layer_prepared].
    destruct (Hinv k) as [refs bs Hs|]; constructor.
    apply (stores_extend w); [|done].
    intros ref rows Href. cbn. by apply lookup_app_l_Some. }
  destruct (for_each_institution_run _ _ statistics_folder (aggregate g)
              (institutions (aggregate g)) Hinv1) as [Hrun Hinv2].
  rewrite (bind_Ok _ _ _ _ _ Hrun). split; [|done].
  unfold ret, after_layer. cbn [fst snd]. reflexivity.
Qed.

(** The object [gdf] names at the end of [process_layer] is the classified
    normalised layer. *)
Lemma process_layer_classifies w hist gdf g statistics_folder :
  gdfs w !! gdf = Some g →
  has_column "institution" g = true →
  summary_holds w hist →
  gdfs (process_layer gdf statistics_folder w).1 !! normalized_ref gdf g (gdfs w)
  = Some (classify (normalized g)).
Proof.
  intros Hg Hcol Hinv.
  destruct (process_layer_run w hist gdf g statistics_folder Hg Hcol Hinv)
    as [-> _].
  cbn [fst]. unfold after_layer. rewrite accumulate_gdfs.
  cbn [fst gdfs layer_prepared].
  apply list_lookup_insert_eq. eapply lookup_lt_Some.
  by apply normalized_lookup.
Qed.
End Layer.

(** ** The loop over the layers *)

Section Loop.
Context `{GeoLib}.


End Loop.

Section LoopRun.
Context `{GeoLib}.


Lemma NoDup_institutions aggs : NoDup (institutions aggs).
Proof.
  unfold institutions. rewrite merge_sort_Permutation. apply NoDup_remove_dups.
Qed.


Lemma after_layer_csv_files statistics_folder gdf g st :
  csv_files (after_layer statistics_folder gdf g st).1
  = csv_files st.1 ++ layer_snapshots statistics_folder st.2 g.
Proof.
  unfold after_layer. rewrite accumulate_csv_files by apply NoDup_institutions.
  done.
Qed.


Lemma after_layer_extends statistics_folder gdf g st ref rows :
  dfs st.1 !! ref = Some rows →
  dfs (after_layer statistics_folder gdf g st).1 !! ref = Some rows.
Proof.
  intros Href. unfold after_layer. apply accumulate_extends.
  cbn. by apply lookup_app_l_Some.
Qed.



End LoopRun.

Section LoopInvariant.
Context `{GeoLib}.






End LoopInvariant.

(** ** The overview *)


Section Overview.
Context `{GeoLib}.



End Overview.

(** ** The whole run *)

Section Main.
Context `{GeoLib}.

Lemma main_halts_on_listing_error files output_folder statistics_folder w d m e :
  read_default files = Ok d → read_map files = Ok m →
  listlayers files = Raise e →
  main files output_folder statistics_folder w = (main_halted d m e w, Ok tt).
Proof.
  intros Hd Hm Hl. unfold main, read_file, try_except. rewrite Hd, Hm, Hl.
  cbn. unfold main_halted. do 2 f_equal. by rewrite <- app_assoc.
Qed.

Lemma main_halts_on_no_layers files output_folder statistics_folder w d m :
  read_default files = Ok d → read_map files = Ok m →
  listlayers files = Ok [] →
  main files output_folder statistics_folder w
  = (main_halted d m "No layers found in the GeoPackage." w, Ok tt).
Proof.
  intros Hd Hm Hl. unfold main, read_file, try_except. rewrite Hd, Hm, Hl.
  cbn. unfold main_halted. do 2 f_equal. by rewrite <- app_assoc.
Qed.




End Main.

(** * Statements about the accumulator and the overview *)

Section AccumulatorStatements.
Context `{GeoLib}.


End AccumulatorStatements.

(** ** Sums over all layers *)

Lemma sumZ_Permutation l l' : l ≡ₚ l' → sumZ l = sumZ l'.
Proof. induction 1; simpl; lia. Qed.



Lemma rows_for_concat k (L : list (list CampaignAggregate)) :
  rows_for k (concat L) = concat (rows_for k <$> L).
Proof.
  unfold rows_for. induction L as [|l L IH]; csimpl; [done|].
  by rewrite filter_app, IH.
Qed.





Section Contributions.
Context `{GeoLib}.




End Contributions.

Section OverviewStatements.
Context `{GeoLib}.


End OverviewStatements.

(** * Statements about CRS normalisation *)

Section NormalizationStatements.
Context `{GeoLib}.


End NormalizationStatements.

Section AliasingStatements.
Context `{GeoLib}.


End AliasingStatements.

(** * Statements about skipped layers and failures *)

Section SkippedLayerStatements.
Context `{GeoLib}.

(** C7, as the code has it.  [process_layer] on a layer without an
    institution column returns [None], not a frame, and leaves the world
    as it was: nothing is printed, nothing is written, the accumulator is
    untouched.  The loop of [main] then adds nothing to [all_statistics];
    the only trace of the layer is the object that was read. *)
Theorem layer_without_institution_is_skipped (w : World) (gdf : nat)
    (g : GeoDataFrame) (statistics_folder : string) :
  gdfs w !! gdf = Some g →
  has_column "institution" g = false →
  process_layer gdf statistics_folder w = (w, Ok None) ∧
  ∀ files layer all_statistics w0,
    read_layer files layer = Ok g →
    layer_step files statistics_folder all_statistics layer w0
    = (set_gdfs (gdfs w0 ++ [g]) w0, Ok all_statistics).
Proof.
  intros Hg Hcol. split; [by apply (process_layer_skip w gdf g)|].
  intros files layer acc w0 Hread.
  unfold layer_step, try_except, read_file. rewrite Hread.
  erewrite bind_Ok by reflexivity.
  erewrite bind_Ok.
  2:{ apply (process_layer_skip _ _ g); [apply lookup_snoc|done]. }
  reflexivity.
Qed.

End SkippedLayerStatements.

Section FrameStatements.
Context `{GeoLib}.

(** C8.  Formatting at emission does not reach the accumulator.  If the
    accumulator holds integer batches before a layer is processed, then
    after it: every frame that existed is unchanged; every reference the
    accumulator stores leads to a frame whose two distance columns hold
    integers; and the tables written while processing the layer are other
    objects, holding formatted strings. *)
Theorem formatting_leaves_history_raw (w : World) (gdf : nat) (g : GeoDataFrame)
    (hist : gmap string (list (list CampaignAggregate)))
    (statistics_folder : string) :
  gdfs w !! gdf = Some g →
  summary_holds w hist →
  ∃ w' r written,
    process_layer gdf statistics_folder w = (w', r) ∧
    (∀ ref rows, dfs w !! ref = Some rows → dfs w' !! ref = Some rows) ∧
    (∀ k refs, institution_summary w' !! k = Some refs →
       Forall (λ ref, ∃ rows, dfs w' !! ref = Some rows ∧
                 Forall (λ row, is_int (row_total_distance_km row) ∧
                                is_int (row_available_distance_km row)) rows)
         refs) ∧
    csv_files w' = csv_files w ++ written ∧
    (∀ path rows, (path, InstitutionTable rows) ∈ written →
       Forall (λ row, is_str (row_total_distance_km row) ∧
                      is_str (row_available_distance_km row)) rows).
Proof.
  intros Hg Hinv.
  assert (∀ w' hist', summary_holds w' hist' →
    ∀ k refs, institution_summary w' !! k = Some refs →
      Forall (λ ref, ∃ rows, dfs w' !! ref = Some rows ∧
                Forall (λ row, is_int (row_total_distance_km row) ∧
                               is_int (row_available_distance_km row)) rows)
        refs) as Hraw.
  { intros w' hist' Hinv' k refs Hk. specialize (Hinv' k). rewrite Hk in Hinv'.
    inversion Hinv' as [? bs Hs|]; subst.
    eapply Forall2_Forall_l; [exact Hs|]. apply Forall_true.
    intros b ref Href. exists (to_row <$> b). split; [done|].
    apply Forall_fmap, Forall_true. by intros a. }
  destruct (has_column "institution" g) eqn:Hcol.
  - destruct (process_layer_run w hist gdf g statistics_folder Hg Hcol Hinv)
      as [Hrun Hinv'].
    eexists _, _, (layer_snapshots statistics_folder hist g).
    split; [exact Hrun|].
    split; [intros ref rows Href; by apply (after_layer_extends _ _ _ (w, hist))|].
    split; [by apply (Hraw _ _ Hinv')|].
    split; [apply (after_layer_csv_files _ _ _ (w, hist))|].
    intros path rows (k & [= -> ->] & _)%list_elem_of_fmap.
    unfold snapshot. apply Forall_fmap, Forall_true. intros row.
    unfold emit, shown. cbn.
    by destruct (row_total_distance_km row), (row_available_distance_km row).
  - exists w, (Ok None), []. split; [by apply (process_layer_skip w gdf g)|].
    split; [done|]. split; [by apply (Hraw _ _ Hinv)|].
    split; [by rewrite app_nil_r|]. by intros path rows ?%elem_of_nil.
Qed.

End FrameStatements.

Section FailureStatements.
Context `{GeoLib}.



End FailureStatements.

(** * Concrete runs *)

Lemma summary_holds_empty w : institution_summary w = ∅ → summary_holds w ∅.
Proof. intros Hempty k. rewrite Hempty, !lookup_empty. constructor. Qed.

(** The scenario of the specification: A then B. *)
Example scenario_two_layers :
  csv_files (main (H:=taxicab_lib) (relisted sample_files ["A"; "B"])
               "out" "stats" empty_world).1
  = [("stats/statistics_X.csv",
      InstitutionTable
        [ {| row_institution := "X"; row_campaign := "2020";
             row_total_distance_km := CStr "5";
             row_available_distance_km := CStr "5"; row_availability := None |};
          {| row_institution := "X"; row_campaign := "Total";
             row_total_distance_km := CStr "5";
             row_available_distance_km := CStr "5";
             row_availability := Some "N/A" |} ]);
     ("stats/statistics_X.csv",
      InstitutionTable
        [ {| row_institution := "X"; row_campaign := "2020";
             row_total_distance_km := CStr "5";
             row_available_distance_km := CStr "5"; row_availability := None |};
          {| row_institution := "X"; row_campaign := "2021";
             row_total_distance_km := CStr "3";
             row_available_distance_km := CStr "0"; row_availability := None |};
          {| row_institution := "X"; row_campaign := "Total";
             row_total_distance_km := CStr "8";
             row_available_distance_km := CStr "5";
             row_availability := Some "N/A" |} ]);
     ("stats/statistics_Y.csv",
      InstitutionTable
        [ {| row_institution := "Y"; row_campaign := "2021";
             row_total_distance_km := CStr "2";
             row_available_distance_km := CStr "0"; row_availability := None |};
          {| row_institution := "Y"; row_campaign := "Total";
             row_total_distance_km := CStr "2";
             row_available_distance_km := CStr "0";
             row_availability := Some "N/A" |} ]);
     ("stats/institution_overview.csv",
      OverviewTable
        [ {| ov_institution := "X"; ov_total_distance_km := CStr "8";
             ov_available_distance_km := CStr "5" |};
          {| ov_institution := "Y"; ov_total_distance_km := CStr "2";
             ov_available_distance_km := CStr "0" |} ])].
Proof. vm_compute. reflexivity. Qed.

(** The same campaign contributed by two layers stays two rows. *)
Example same_campaign_twice_is_not_merged :
  last (csv_files (layers_loop (H:=taxicab_lib) sample_files "stats" []
                     ["A"; "A"] empty_world).1)
  = Some ("stats/statistics_X.csv",
          InstitutionTable
            [ {| row_institution := "X"; row_campaign := "2020";
                 row_total_distance_km := CStr "5";
                 row_available_distance_km := CStr "5"; row_availability := None |};
              {| row_institution := "X"; row_campaign := "2020";
                 row_total_distance_km := CStr "5";
                 row_available_distance_km := CStr "5"; row_availability := None |};
              {| row_institution := "X"; row_campaign := "Total";
                 row_total_distance_km := CStr "10";
                 row_available_distance_km := CStr "10";
                 row_availability := Some "N/A" |} ]).
Proof. vm_compute. reflexivity. Qed.

(** A run whose only layer lacks the institution column ends in an
    uncaught error; a run whose only layer has the column but no record
    completes with an empty overview. *)
Example only_plain_layer_crashes :
  (main (H:=taxicab_lib) (relisted sample_files ["D"]) "out" "stats" empty_world).2
  = Raise "No objects to concatenate".
Proof. vm_compute. reflexivity. Qed.

Example only_empty_layer_completes :
  let r := main (H:=taxicab_lib) (relisted sample_files ["E"]) "out" "stats"
             empty_world in
  r.2 = Ok tt ∧
  csv_files r.1 = [("stats/institution_overview.csv", OverviewTable [])].
Proof. vm_compute. split; reflexivity. Qed.

(** C7, as stated, fails: on a layer without institution column
    [process_layer] does not return an empty sequence of rows; it returns
    no frame at all. *)
Lemma skipped_layer_returns_no_sequence :
  ¬ returns_empty_sequence
      (process_layer (H:=taxicab_lib) 0 "stats" (world_with layer_plain)).
Proof. intros (ref & Hr & _). vm_compute in Hr. discriminate. Qed.

(** Normalisation on the two sample layers: A is tagged in place, B is
    left alone and a reprojected copy is created. *)
Example layer_a_is_tagged_in_place :
  normalize_crs (H:=taxicab_lib) 0 (world_with layer_a)
  = (world_with {| crs := Some EPSG_3031; columns := columns layer_a;
                   features := features layer_a |}, Ok 0%nat).
Proof. reflexivity. Qed.

Example layer_b_is_copied :
  let r := normalize_crs (H:=taxicab_lib) 0 (world_with layer_b) in
  r.2 = Ok 1%nat ∧
  gdfs r.1 = [layer_b; {| crs := Some EPSG_3031; columns := columns layer_b;
                          features := features layer_b |}].
Proof. split; reflexivity. Qed.

(** The sample package: layer C cannot be read, layer D has no institution
    column; the run completes, reports C and says nothing about D. *)
Example sample_run_reports_layer_c :
  let r := main (H:=taxicab_lib) sample_files "out" "stats" empty_world in
  r.2 = Ok tt ∧
  stdout r.1 !! 7%nat
  = Some (Text "Skipping layer C due to read error: cannot open layer") ∧
  stdout r.1 !! 8%nat
  = Some (Text "Saved institution overview statistics to stats/institution_overview.csv") ∧
  length (csv_files r.1) = 4%nat.
Proof. vm_compute. repeat split. Qed.

Example no_layers_halts :
  main (H:=taxicab_lib) (relisted sample_files []) "out" "stats" empty_world
  = ({| gdfs := [layer_a; layer_plain]; dfs := []; institution_summary := ∅;
        csv_files := [];
        stdout := [Text "Error listing layers in the GeoPackage: No layers found in the GeoPackage."] |},
     Ok tt).
Proof. reflexivity. Qed.

(** * The theorems at concrete inputs *)

Lemma classified_record_invariant_witness :
  {| geometry := LineString [(0, 0); (5000, 0)]%Q; institution := Some "X";
     campaign := Some "2020"; availability := Some "yes";
     total_distance_km := 5; available_distance_km := 5 |}
    ∈ features (classify (H:=taxicab_lib) layer_a) ∧
  (Some "yes" = Some "yes" ∨ Some "yes" = Some "no" ∨
   Some "yes" = Some "outdated" :> option string) ∧
  0 ≤ 5 ∧ 0 ≤ 5 ∧ 5 ≤ 5 ∧ (0 < 5 → Some "yes" = Some "yes" :> option string).
Proof.
  assert ({| geometry := LineString [(0, 0); (5000, 0)]%Q; institution := Some "X";
             campaign := Some "2020"; availability := Some "yes";
             total_distance_km := 5; available_distance_km := 5 |}
            ∈ features (classify (H:=taxicab_lib) layer_a)) as Hin.
  { exact (list_elem_of_here _ []). }
  split; [exact Hin|].
  exact (classified_record_invariant (H:=taxicab_lib) layer_a _ Hin).
Defined.





Lemma layer_without_institution_is_skipped_witness :
  gdfs (world_with layer_plain) !! 0%nat = Some layer_plain ∧
  has_column "institution" layer_plain = false ∧
  process_layer (H:=taxicab_lib) 0 "stats" (world_with layer_plain)
  = (world_with layer_plain, Ok None) ∧
  ∀ files layer all_statistics w0,
    read_layer files layer = Ok layer_plain →
    layer_step (H:=taxicab_lib) files "stats" all_statistics layer w0
    = (set_gdfs (gdfs w0 ++ [layer_plain]) w0, Ok all_statistics).
Proof.
  split; [reflexivity|]. split; [reflexivity|].
  exact (layer_without_institution_is_skipped (H:=taxicab_lib)
           (world_with layer_plain) 0 layer_plain "stats" eq_refl eq_refl).
Defined.

Lemma formatting_leaves_history_raw_witness :
  gdfs (world_with layer_a) !! 0%nat = Some layer_a ∧
  summary_holds (world_with layer_a) ∅ ∧
  ∃ w' r written,
    process_layer (H:=taxicab_lib) 0 "stats" (world_with layer_a) = (w', r) ∧
    (∀ ref rows, dfs (world_with layer_a) !! ref = Some rows →
                 dfs w' !! ref = Some rows) ∧
    (∀ k refs, institution_summary w' !! k = Some refs →
       Forall (λ ref, ∃ rows, dfs w' !! ref = Some rows ∧
                 Forall (λ row, is_int (row_total_distance_km row) ∧
                                is_int (row_available_distance_km row)) rows)
         refs) ∧
    csv_files w' = csv_files (world_with layer_a) ++ written ∧
    (∀ path rows, (path, InstitutionTable rows) ∈ written →
       Forall (λ row, is_str (row_total_distance_km row) ∧
                      is_str (row_available_distance_km row)) rows).
Proof.
  split; [reflexivity|].
  split; [exact (summary_holds_empty (world_with layer_a) eq_refl)|].
  exact (formatting_leaves_history_raw (H:=taxicab_lib) (world_with layer_a) 0
           layer_a ∅ "stats" eq_refl
           (summary_holds_empty (world_with layer_a) eq_refl)).
Defined.


(** * Further properties of the script *)

(** ** The order of the group keys *)

Lemma string_compare_refl s : String.compare s s = Eq.
Proof.
  induction s as [|a s IH]; simpl; [done|].
  unfold Ascii.compare. by rewrite N.compare_refl.
Qed.

Lemma string_le_compare s t : String.le s t ↔ String.compare s t ≠ Gt.
Proof.
  unfold String.le, String.leb. destruct (String.compare s t); simpl; split;
    intros; done.
Qed.

Lemma string_compare_Lt_le s t : String.compare s t = Lt → String.le s t.
Proof. intros Hc. apply string_le_compare. by rewrite Hc. Qed.

Lemma string_compare_Gt_le s t : String.compare s t = Gt → String.le t s.
Proof.
  intros Hc. apply string_le_compare.
  rewrite String.compare_antisym, Hc. done.
Qed.

Lemma string_compare_Lt_trans s t u :
  String.compare s t = Lt → String.compare t u = Lt → String.compare s u = Lt.
Proof.
  intros Hst Htu.
  pose proof (string_compare_Lt_le _ _ Hst) as Hle1.
  pose proof (string_compare_Lt_le _ _ Htu) as Hle2.
  assert (String.le s u) as Hle by by etrans.
  apply string_le_compare in Hle.
  destruct (String.compare s u) eqn:Hsu; [|done..].
  apply String.compare_eq_iff in Hsu as ->.
  assert (t = u) as -> by by apply (anti_symm String.le).
  by rewrite string_compare_refl in Htu.
Qed.

#[global] Instance key_le_refl : Reflexive key_le.
Proof. intros [i c]. unfold key_le. simpl. by rewrite string_compare_refl. Qed.

#[global] Instance key_le_trans : Transitive key_le.
Proof.
  intros [i1 c1] [i2 c2] [i3 c3]. unfold key_le. simpl.
  destruct (String.compare i1 i2) eqn:H12; [| |done].
  - apply String.compare_eq_iff in H12 as ->.
    destruct (String.compare i2 i3); [|done..]. intros ??. by etrans.
  - destruct (String.compare i2 i3) eqn:H23; [| |done].
    + apply String.compare_eq_iff in H23 as <-. by rewrite H12.
    + by rewrite (string_compare_Lt_trans _ _ _ H12 H23).
Qed.

#[global] Instance key_le_antisymm : AntiSymm (=) key_le.
Proof.
  intros [i1 c1] [i2 c2]. unfold key_le. simpl.
  rewrite (String.compare_antisym i2 i1).
  destruct (String.compare i1 i2) eqn:H12; simpl; [|done..].
  apply String.compare_eq_iff in H12 as ->. intros ??. f_equal.
  by apply (anti_symm String.le).
Qed.

#[global] Instance key_le_total : Total key_le.
Proof.
  intros [i1 c1] [i2 c2]. unfold key_le. simpl.
  rewrite (String.compare_antisym i2 i1).
  destruct (String.compare i1 i2) eqn:H12; simpl; [|by left|by right].
  apply (total String.le).
Qed.

(** ** Grouping and summing *)





Lemma omap_filter_is_Some {A K} (key : A → option K) (rows : list A) :
  omap key (filter (λ r, is_Some (key r)) rows) = omap key rows.
Proof.
  induction rows as [|r rows IH]; [done|].
  rewrite filter_cons. destruct (key r) as [k|] eqn:Hkey.
  - rewrite decide_True by done. csimpl. by rewrite Hkey, IH.
  - rewrite decide_False by (by intros [? ?]). csimpl. by rewrite Hkey.
Qed.

Lemma filter_key_filter_is_Some {A K} `{EqDecision K} (key : A → option K)
    (k : K) (rows : list A) :
  filter (λ r, key r = Some k) (filter (λ r, is_Some (key r)) rows)
  = filter (λ r, key r = Some k) rows.
Proof.
  induction rows as [|r rows IH]; [done|].
  rewrite !filter_cons. destruct (key r) as [k'|] eqn:Hkey.
  - rewrite decide_True by done. rewrite filter_cons, Hkey.
    by destruct (decide (Some k' = Some k)); rewrite IH.
  - rewrite decide_False by (by intros [? ?]). by rewrite decide_False.
Qed.

Lemma remove_dups_Permutation {A} `{EqDecision A} (l l' : list A) :
  l ≡ₚ l' → remove_dups l ≡ₚ remove_dups l'.
Proof.
  intros Hp. apply NoDup_Permutation; [apply NoDup_remove_dups..|].
  intros x. by rewrite !elem_of_remove_dups, Hp.
Qed.

Lemma group_keys_present (g : GeoDataFrame) (k : string * string) :
  k ∈ merge_sort key_le (remove_dups (omap group_key (features g)))
  ↔ ∃ r, r ∈ features g ∧ group_key r = Some k.
Proof.
  by rewrite merge_sort_Permutation, elem_of_remove_dups, list_elem_of_omap.
Qed.

Lemma row_key_grouped (g : GeoDataFrame) :
  row_key <$> groupby_institution_campaign g
  = merge_sort key_le (remove_dups (omap group_key (features g))).
Proof.
  unfold groupby_institution_campaign. rewrite <- list_fmap_compose.
  rewrite <- (list_fmap_id (merge_sort _ _)) at 2.
  apply list_fmap_ext. by intros _ [i c] _.
Qed.

(** X1, lines 68-71.  The grouped table has one row per key that occurs
    among the records, the keys are pairwise distinct, and the rows come in
    increasing key order. *)
Theorem grouped_rows_are_sorted_and_distinct (g : GeoDataFrame) :
  StronglySorted key_le (row_key <$> groupby_institution_campaign g) ∧
  NoDup (row_key <$> groupby_institution_campaign g) ∧
  ∀ k, k ∈ row_key <$> groupby_institution_campaign g
       ↔ ∃ r, r ∈ features g ∧ institution r = Some k.1 ∧ campaign r = Some k.2.
Proof.
  rewrite row_key_grouped. split; [|split].
  - apply StronglySorted_merge_sort; apply _.
  - rewrite merge_sort_Permutation. apply NoDup_remove_dups.
  - intros k. rewrite group_keys_present. unfold group_key.
    split; intros (r & Hr & Hk); exists r; (split; [done|]).
    + destruct (institution r), (campaign r); by simplify_eq.
    + destruct Hk as [-> ->]. by destruct k.
Qed.


(** X3, lines 68-71.  The grouped table depends only on the records with
    non-null institution and campaign, and not on their order. *)
Theorem grouping_ignores_order_and_null_keys (g g' : GeoDataFrame) :
  filter (λ r, is_Some (group_key r)) (features g)
    ≡ₚ filter (λ r, is_Some (group_key r)) (features g') →
  groupby_institution_campaign g = groupby_institution_campaign g'.
Proof.
  intros Hp. unfold groupby_institution_campaign.
  assert (merge_sort key_le (remove_dups (omap group_key (features g)))
          = merge_sort key_le (remove_dups (omap group_key (features g')))) as ->.
  { apply (Sorted_unique key_le); [apply Sorted_merge_sort; apply _..|].
    rewrite !merge_sort_Permutation. apply remove_dups_Permutation.
    rewrite <- (omap_filter_is_Some group_key (features g)).
    rewrite <- (omap_filter_is_Some group_key (features g')).
    by rewrite Hp. }
  apply list_fmap_ext. intros _ k _. cbn zeta.
  rewrite <- (filter_key_filter_is_Some group_key k (features g)).
  rewrite <- (filter_key_filter_is_Some group_key k (features g')).
  assert (filter (λ r, group_key r = Some k)
            (filter (λ r, is_Some (group_key r)) (features g))
          ≡ₚ filter (λ r, group_key r = Some k)
               (filter (λ r, is_Some (group_key r)) (features g'))) as Hk
    by by rewrite Hp.
  f_equal; f_equal; apply sumZ_Permutation; by rewrite Hk.
Qed.

(** ** Classification, once more *)


Lemma sumZ_fmap_zero_on {A} (f : A → Z) (l : list A) :
  (∀ r, r ∈ l → f r = 0) → sumZ (f <$> l) = 0.
Proof.
  induction l as [|r l IH]; intros Hf; csimpl; [done|].
  rewrite (Hf r) by left. rewrite IH; [done|]. intros r' Hr'. apply Hf. by right.
Qed.


Section ClassifyMore.
Context `{GeoLib}.


Lemma has_column_add_availability n g :
  has_column n (add_availability g)
  = bool_decide (n = "availability")
    || (bool_decide (n = "available_distance_km") || has_column n g).
Proof.
  unfold add_availability.
  destruct (has_column "availability" g); by rewrite !has_column_assign.
Qed.

Lemma has_column_add_campaign n g :
  has_column n (add_campaign g) = bool_decide (n = "campaign") || has_column n g.
Proof.
  unfold add_campaign. destruct (has_column "campaign" g) eqn:Hc; simpl.
  - case_bool_decide as Hn; [by subst|done].
  - by rewrite has_column_assign.
Qed.

Lemma has_column_classify n g :
  has_column n (classify g)
  = has_column n g
    || bool_decide (n ∈ ["total_distance_km"; "available_distance_km";
                         "availability"; "campaign"]).
Proof.
  unfold classify, add_total_distance.
  rewrite has_column_add_campaign, has_column_add_availability, has_column_assign.
  apply eq_true_iff_eq.
  rewrite !orb_true_iff, !bool_decide_eq_true, !elem_of_cons, elem_of_nil.
  tauto.
Qed.

(** X5, lines 51-65.  Classification keeps the shape of the layer: the same
    records in the same order with their geometry and institution, the same
    reference system, every column the layer had, and the four columns it
    fills. *)
Theorem classify_keeps_the_layer (g : GeoDataFrame) :
  crs (classify g) = crs g ∧
  geometry <$> features (classify g) = geometry <$> features g ∧
  institution <$> features (classify g) = institution <$> features g ∧
  (∀ n, has_column n g = true → has_column n (classify g) = true) ∧
  has_column "total_distance_km" (classify g) = true ∧
  has_column "available_distance_km" (classify g) = true ∧
  has_column "availability" (classify g) = true ∧
  has_column "campaign" (classify g) = true.
Proof.
  split; [|split; [|split; [|split]]].
  - unfold classify, add_campaign, add_availability, add_total_distance.
    destruct (has_column "availability" _), (negb _); by rewrite ?crs_assign.
  - rewrite classify_features, <- list_fmap_compose. by apply list_fmap_ext.
  - rewrite classify_features, <- list_fmap_compose. by apply list_fmap_ext.
  - intros n Hn. by rewrite has_column_classify, Hn.
  - rewrite !has_column_classify. repeat split; by rewrite orb_true_r.
Qed.

(** X6, lines 54-58.  Classification is not idempotent.  It overwrites the
    availability column with the classes, which are not raw codes: on a
    layer that has been classified already, every record becomes
    [outdated] with available distance 0, and so does every grouped row. *)
Theorem classifying_twice_loses_availability (g : GeoDataFrame) :
  (∀ r, r ∈ features (classify (classify g)) →
     available_distance_km r = 0 ∧ availability r = Some "outdated") ∧
  (∀ row, row ∈ groupby_institution_campaign (classify (classify g)) →
     row_available_distance_km row = CInt 0).
Proof.
  assert (∀ r, r ∈ features (classify (classify g)) →
     available_distance_km r = 0 ∧ availability r = Some "outdated") as Hrec.
  { intros r. rewrite (classify_features (classify g)), has_column_classify.
    rewrite orb_true_r.
    intros (r1 & -> & Hr1)%list_elem_of_fmap.
    rewrite classify_features in Hr1.
    apply list_elem_of_fmap in Hr1 as (r0 & -> & _). cbn.
    unfold availability_class.
    destruct (has_column "availability" g); simpl;
      repeat case_bool_decide; simplify_eq; done. }
  split; [done|].
  intros row (k & -> & _)%list_elem_of_fmap. cbn. f_equal.
  apply sumZ_fmap_zero_on. intros r (_ & Hr)%list_elem_of_filter.
  by apply Hrec.
Qed.

End ClassifyMore.

(** ** Thousands separators *)

Lemma filter_rev {A} (P : A → Prop) `{∀ x, Decision (P x)} (l : list A) :
  filter P (rev l) = rev (filter P l).
Proof.
  induction l as [|x l IH]; [done|]. simpl.
  rewrite filter_app, IH. destruct (decide (P x)).
  - by rewrite !filter_cons_True.
  - rewrite !filter_cons_False by done. apply app_nil_r.
Qed.

Lemma filter_group3 (ds : list ascii) (k : nat) :
  Forall (λ c : ascii, c ≠ ","%char) ds →
  filter (λ c : ascii, c ≠ ","%char) (group3 ds k) = ds.
Proof.
  intros Hds. revert k.
  induction Hds as [|d rest Hd Hrest IH]; intros k; [done|].
  simpl. destruct rest as [|d' rest'].
  - by rewrite filter_cons_True.
  - destruct (k =? 2)%nat.
    + rewrite filter_cons_True by done. rewrite filter_cons_False by (by intros []).
      by rewrite IH.
    + rewrite filter_cons_True by done. by rewrite IH.
Qed.

Lemma pretty_N_char_no_comma x : pretty_N_char x ≠ ","%char.
Proof. compute. by repeat (discriminate || case_match). Qed.

Lemma pretty_N_go_no_comma x s :
  Forall (λ c : ascii, c ≠ ","%char) (String.list_ascii_of_string s) →
  Forall (λ c : ascii, c ≠ ","%char) (String.list_ascii_of_string (pretty_N_go x s)).
Proof.
  revert s. induction (N.lt_wf_0 x) as [x _ IH]; intros s Hs.
  assert (x = 0 ∨ 0 < x)%N as [->|?] by lia.
  - by rewrite pretty_N_go_0.
  - rewrite pretty_N_go_step by done. apply IH.
    { by apply N.div_lt. }
    simpl. constructor; [apply pretty_N_char_no_comma|done].
Qed.

Lemma pretty_N_no_comma (n : N) :
  Forall (λ c : ascii, c ≠ ","%char) (String.list_ascii_of_string (pretty n)).
Proof.
  unfold pretty, pretty_N. case_decide.
  - simpl. repeat constructor. discriminate.
  - apply pretty_N_go_no_comma. constructor.
Qed.

Lemma strip_commas_commas (n : N) : strip_commas (commas n) = pretty n.
Proof.
  unfold strip_commas, commas.
  rewrite String.list_ascii_of_string_of_list_ascii, filter_rev, filter_group3.
  - by rewrite rev_involutive, String.string_of_list_ascii_of_string.
  - apply List.Forall_rev, pretty_N_no_comma.
Qed.

(** X8, lines 33-34.  Formatting an integer only puts separators in: with
    the commas taken out again, what is left is the decimal numeral of the
    number, sign included. *)
Theorem format_with_commas_only_adds_commas (z : Z) :
  ∃ s, format_with_commas (CInt z) = Ok s ∧ strip_commas s = pretty z.
Proof.
  eexists. split; [reflexivity|].
  destruct z as [|p|p].
  - reflexivity.
  - apply (strip_commas_commas (N.pos p)).
  - change (format_int (Z.neg p)) with (String "-" (commas (N.pos p))).
    change (pretty (Z.neg p)) with (String "-" (pretty (N.pos p))).
    rewrite <- (strip_commas_commas (N.pos p)). unfold strip_commas.
    cbn [String.list_ascii_of_string].
    by rewrite filter_cons_True by discriminate.
Qed.

(** ** Output paths *)

Lemma list_ascii_of_string_append (s t : string) :
  String.list_ascii_of_string (String.append s t)
  = String.list_ascii_of_string s ++ String.list_ascii_of_string t.
Proof. induction s as [|c s IH]; simpl; [done|]. by rewrite IH. Qed.

Lemma append_inv_tail (s s' t : string) :
  String.append s t = String.append s' t → s = s'.
Proof.
  intros Heq%(f_equal String.list_ascii_of_string).
  rewrite !list_ascii_of_string_append in Heq. apply app_inv_tail in Heq.
  rewrite <- (String.string_of_list_ascii_of_string s),
          <- (String.string_of_list_ascii_of_string s').
  by rewrite Heq.
Qed.

Lemma append_inv_head (s t t' : string) :
  String.append s t = String.append s t' → t = t'.
Proof. apply (inj (String.append s)). Qed.

Lemma append_assoc (s t u : string) :
  String.append (String.append s t) u = String.append s (String.append t u).
Proof.
  induction s as [|c s IH]; [done|].
  change (String c (String.append (String.append s t) u)
          = String c (String.append s (String.append t u))).
  by rewrite IH.
Qed.

(** Joining a folder and a relative name puts one prefix, which depends on
    the folder only, before the name. *)
Lemma path_join_relative (a b : string) :
  (∀ s, b ≠ String "/" s) →
  path_join a b
  = String.append (if bool_decide (a = "") || ends_with_slash a
                   then a else String.append a "/") b.
Proof.
  intros Hb. unfold path_join.
  assert ((if bool_decide (a = "") || ends_with_slash a
           then String.append a b else String.append a (String.append "/" b))
          = String.append (if bool_decide (a = "") || ends_with_slash a
                           then a else String.append a "/") b) as Hgoal.
  { destruct (_ || _); [done|]. by rewrite append_assoc. }
  destruct b as [|c b]; [done|].
  destruct (decide (c = "/"%char)) as [->|Hc]; [by destruct (Hb b)|].
  rewrite <- Hgoal.
  destruct c as [[] [] [] [] [] [] [] []]; try done.
Qed.

Lemma statistics_path_inj (statistics_folder k k' : string) :
  statistics_path statistics_folder k = statistics_path statistics_folder k' →
  k = k'.
Proof.
  unfold statistics_path. rewrite !path_join_relative by done.
  intros Heq%append_inv_head. simpl in Heq. simplify_eq.
  by eapply append_inv_tail.
Qed.

Lemma statistics_path_not_overview (statistics_folder k : string) :
  statistics_path statistics_folder k ≠ overview_path statistics_folder.
Proof.
  unfold statistics_path, overview_path. rewrite !path_join_relative by done.
  by intros Heq%append_inv_head.
Qed.

(** X9, lines 96 and 149.  Every institution has a statistics file of its
    own, and none of them is the overview file: no output of a run is
    overwritten by the output for something else. *)
Theorem output_files_are_distinct (statistics_folder : string) :
  Inj (=) (=) (statistics_path statistics_folder) ∧
  ∀ k, statistics_path statistics_folder k ≠ overview_path statistics_folder.
Proof.
  split.
  - intros k k'. apply statistics_path_inj.
  - apply statistics_path_not_overview.
Qed.

(** ** The growth of the accumulator *)

Section AccumulatorGrowth.
Context `{GeoLib}.


End AccumulatorGrowth.

(** ** The files at the end of a run *)

Section FinalFiles.
Context `{GeoLib}.








End FinalFiles.

(** ** The script institution-statistics.py *)

Section ScriptRun.
Context `{GeoLib}.

Lemma try_except_Ok {A} (body : M A) handler w w' a :
  body w = (w', Ok a) → try_except body handler w = (w', Ok a).
Proof. unfold try_except. by intros ->. Qed.









(** X14, institution-statistics.py, lines 44 and 124.  The script has no
    guard around the listing of the layers.  Where [main] prints a message
    and returns, an unreadable package or one without layers, the script
    ends with an error, the listing's own or the one of the concatenation
    of no table; it has written no file then either. *)
Theorem script_fails_where_main_halts
    (files : Files) (output_folder statistics_folder : string) (w : World)
    (d m : GeoDataFrame) :
  read_default files = Ok d → read_map files = Ok m →
  listlayers files = Ok [] ∨ (∃ e, listlayers files = Raise e) →
  (∃ w', main files output_folder statistics_folder w = (w', Ok tt) ∧
         csv_files w' = csv_files w) ∧
  ∃ ws' e,
    InstitutionStatistics.script files w = (ws', Raise e) ∧
    csv_files ws' = csv_files w ∧
    (listlayers files = Ok [] → e = "No objects to concatenate") ∧
    (∀ e', listlayers files = Raise e' → e = e').
Proof.
  intros Hd Hm [Hl|[e Hl]].
  - split.
    + eexists. split; [by apply (main_halts_on_no_layers files _ _ w d m)|done].
    + unfold InstitutionStatistics.script. rewrite Hl.
      eexists _, _. split; [reflexivity|]. split; [done|]. split; [done|].
      intros e' [=].
  - split.
    + eexists. split; [by apply (main_halts_on_listing_error files _ _ w d m e)|done].
    + unfold InstitutionStatistics.script. rewrite Hl.
      eexists _, _. split; [reflexivity|]. split; [done|].
      split; [intros [=]|]. by intros e' [= ->].
Qed.
End ScriptRun.

(** ** From the records to the overview *)

Section Conservation.
Context `{GeoLib}.






End Conservation.

(** ** What [main] does not depend on *)

Section DeadReads.
Context `{GeoLib}.





(** X17, lines 107-111.  The two preliminary reads can still end the run:
    when one of them fails, [main] ends with that error before it has
    listed a layer, printed a line or written a file. *)
Theorem main_needs_the_preliminary_reads
    (files : Files) (output_folder statistics_folder : string) (w : World)
    (e : string) :
  read_default files = Raise e ∨
  ((∃ d, read_default files = Ok d) ∧ read_map files = Raise e) →
  ∃ w', main files output_folder statistics_folder w = (w', Raise e) ∧
        csv_files w' = csv_files w ∧ stdout w' = stdout w ∧
        dfs w' = dfs w ∧ institution_summary w' = institution_summary w.
Proof.
  intros [Hd|[[d Hd] Hm]]; unfold main, read_file.
  - rewrite Hd. eexists. split; [reflexivity|done].
  - rewrite Hd, Hm. eexists. split; [reflexivity|done].
Qed.

(** X18, generate_statistics.py, lines 37-38 and 126-133, and
    institution-statistics.py, lines 56-58.  A readable layer without the
    column [institution] is passed over by both programs, with all tables
    and [all_statistics] left as they were; the script prints a line that
    names the layer, [main] prints nothing. *)
Theorem layer_without_institution_in_both
    (files : Files) (statistics_folder layer : string) (g : GeoDataFrame)
    (all_statistics : list nat) (w : World) :
  read_layer files layer = Ok g →
  has_column "institution" g = false →
  layer_step files statistics_folder all_statistics layer w
  = (set_gdfs (gdfs w ++ [g]) w, Ok all_statistics) ∧
  InstitutionStatistics.layer_step files all_statistics layer w
  = (set_stdout
       (stdout w ++
        [Text (String.append "Skipping layer "
                 (String.append layer
                    " as it does not contain 'institution' column."))])
       (set_gdfs (gdfs w ++ [g]) w),
     Ok all_statistics).
Proof.
  intros Hread Hcol.
  assert (gdfs (set_gdfs (gdfs w ++ [g]) w) !! length (gdfs w) = Some g) as Hg
    by apply lookup_snoc.
  split.
  - unfold layer_step, read_file. rewrite Hread.
    erewrite try_except_Ok; [reflexivity|].
    erewrite bind_Ok by reflexivity.
    by rewrite (bind_Ok _ _ _ _ _
                  (process_layer_skip _ _ g statistics_folder Hg Hcol)).
  - unfold InstitutionStatistics.layer_step, read_file. rewrite Hread.
    erewrite bind_Ok by (by apply try_except_Ok).
    cbv beta iota.
    rewrite (bind_Ok _ _ _ _ _ (get_gdf_run _ _ _ Hg)). rewrite Hcol.
    cbn [negb]. by erewrite bind_Ok by reflexivity.
Qed.
End DeadReads.

(** ** The script on the sample package *)

Example script_sample_run :
  let r := InstitutionStatistics.script (H:=taxicab_lib) sample_files empty_world in
  r.2 = Ok tt ∧
  stdout r.1 !! 0%nat = Some (Text "Processing layer: A") ∧
  stdout r.1 !! 5%nat
  = Some (Text "Skipping layer C due to read error: cannot open layer") ∧
  stdout r.1 !! 6%nat
  = Some (Text "Skipping layer D as it does not contain 'institution' column.") ∧
  fst <$> csv_files r.1
  = ["./data_statistics/statistics_X.csv"; "./data_statistics/statistics_X.csv";
     "./data_statistics/statistics_Y.csv";
     "./data_statistics/institution_overview.csv"].
Proof. vm_compute. repeat split. Qed.

Example script_no_layers_crashes :
  (InstitutionStatistics.script (H:=taxicab_lib) (relisted sample_files [])
     empty_world).2
  = Raise "No objects to concatenate".
Proof. reflexivity. Qed.

Example format_strip_example : strip_commas (format_int (-1234567)) = "-1234567".
Proof. reflexivity. Qed.

(** ** The further theorems at concrete inputs *)

Lemma grouping_ignores_order_and_null_keys_witness :
  filter (λ r, is_Some (group_key r)) (features layer_b)
    ≡ₚ filter (λ r, is_Some (group_key r)) (features layer_b_reversed) ∧
  groupby_institution_campaign layer_b
  = groupby_institution_campaign layer_b_reversed.
Proof.
  assert (filter (λ r, is_Some (group_key r)) (features layer_b)
            ≡ₚ filter (λ r, is_Some (group_key r)) (features layer_b_reversed))
    as Hp.
  { vm_compute. apply perm_swap. }
  split; [exact Hp|].
  exact (grouping_ignores_order_and_null_keys layer_b layer_b_reversed Hp).
Defined.


Lemma classify_keeps_the_layer_witness :
  crs (classify (H:=taxicab_lib) layer_b) = crs layer_b ∧
  geometry <$> features (classify (H:=taxicab_lib) layer_b)
  = geometry <$> features layer_b ∧
  institution <$> features (classify (H:=taxicab_lib) layer_b)
  = institution <$> features layer_b ∧
  (∀ n, has_column n layer_b = true →
        has_column n (classify (H:=taxicab_lib) layer_b) = true) ∧
  has_column "total_distance_km" (classify (H:=taxicab_lib) layer_b) = true ∧
  has_column "available_distance_km" (classify (H:=taxicab_lib) layer_b) = true ∧
  has_column "availability" (classify (H:=taxicab_lib) layer_b) = true ∧
  has_column "campaign" (classify (H:=taxicab_lib) layer_b) = true.
Proof. exact (classify_keeps_the_layer (H:=taxicab_lib) layer_b). Defined.

Lemma classifying_twice_loses_availability_witness :
  available_distance_km
    <$> features (classify (H:=taxicab_lib) layer_a) = [5] ∧
  (∀ r, r ∈ features (classify (H:=taxicab_lib) (classify (H:=taxicab_lib) layer_a)) →
     available_distance_km r = 0 ∧ availability r = Some "outdated") ∧
  (∀ row, row ∈ groupby_institution_campaign
                  (classify (H:=taxicab_lib) (classify (H:=taxicab_lib) layer_a)) →
     row_available_distance_km row = CInt 0).
Proof.
  split; [reflexivity|].
  exact (classifying_twice_loses_availability (H:=taxicab_lib) layer_a).
Defined.






Lemma script_fails_where_main_halts_witness :
  read_default (relisted sample_files []) = Ok layer_a ∧
  read_map (relisted sample_files []) = Ok layer_plain ∧
  (listlayers (relisted sample_files []) = Ok [] ∨
   (∃ e, listlayers (relisted sample_files []) = Raise e)) ∧
  (∃ w', main (H:=taxicab_lib) (relisted sample_files []) "out" "stats" empty_world
         = (w', Ok tt) ∧
         csv_files w' = csv_files empty_world) ∧
  ∃ ws' e,
    InstitutionStatistics.script (H:=taxicab_lib) (relisted sample_files [])
      empty_world = (ws', Raise e) ∧
    csv_files ws' = csv_files empty_world ∧
    (listlayers (relisted sample_files []) = Ok [] →
     e = "No objects to concatenate") ∧
    (∀ e', listlayers (relisted sample_files []) = Raise e' → e = e').
Proof.
  split; [reflexivity|]. split; [reflexivity|].
  split; [left; reflexivity|].
  exact (script_fails_where_main_halts (H:=taxicab_lib) (relisted sample_files [])
           "out" "stats" empty_world layer_a layer_plain eq_refl eq_refl
           (or_introl eq_refl)).
Defined.



Lemma main_needs_the_preliminary_reads_witness :
  (read_default sample_files_no_map = Raise "no such file" ∨
   ((∃ d, read_default sample_files_no_map = Ok d) ∧
    read_map sample_files_no_map = Raise "no such file")) ∧
  ∃ w', main (H:=taxicab_lib) sample_files_no_map "out" "stats" empty_world
        = (w', Raise "no such file") ∧
        csv_files w' = csv_files empty_world ∧ stdout w' = stdout empty_world ∧
        dfs w' = dfs empty_world ∧
        institution_summary w' = institution_summary empty_world.
Proof.
  assert (read_default sample_files_no_map = Raise "no such file" ∨
          ((∃ d, read_default sample_files_no_map = Ok d) ∧
           read_map sample_files_no_map = Raise "no such file"))
    as Hfail by (right; split; [exists layer_a|]; reflexivity).
  split; [exact Hfail|].
  exact (main_needs_the_preliminary_reads (H:=taxicab_lib) sample_files_no_map
           "out" "stats" empty_world "no such file" Hfail).
Defined.

Lemma layer_without_institution_in_both_witness :
  read_layer sample_files "D" = Ok layer_plain ∧
  has_column "institution" layer_plain = false ∧
  layer_step (H:=taxicab_lib) sample_files "stats" [] "D" empty_world
  = (set_gdfs (gdfs empty_world ++ [layer_plain]) empty_world, Ok []) ∧
  InstitutionStatistics.layer_step (H:=taxicab_lib) sample_files [] "D" empty_world
  = (set_stdout
       (stdout empty_world ++
        [Text (String.append "Skipping layer "
                 (String.append "D"
                    " as it does not contain 'institution' column."))])
       (set_gdfs (gdfs empty_world ++ [layer_plain]) empty_world),
     Ok []).
Proof.
  split; [reflexivity|]. split; [reflexivity|].
  exact (layer_without_institution_in_both (H:=taxicab_lib) sample_files "stats"
           "D" layer_plain [] empty_world eq_refl eq_refl).
Defined.
